(** * SilverSprint: readiness scoring, interval parsing and race estimation

    A shallow embedding of the pure TypeScript core of SilverSprint
    (domain/sprint/core, parser, race-estimator, race-plan, workouts and
    the strength periodization) together with the properties its design
    document states about it and further properties read off the code.

    Numbers.  A JavaScript [number] is modelled as an exact rational [Q]:
    the finite, non-NaN doubles with the binary rounding error of each
    operation left out.  Comparisons, [Math.min], [Math.max], [Math.round]
    and [toFixed] are written out below on that model.  Values produced by
    [Math.round] are integers and are typed [Z].

    Division.  The sources divide under a guard ([avgVmax > 0],
    [avgHRV7d > 0], [peakVmax > 0], a non-empty array) everywhere but in
    [buildTrainingProfile], which divides a distance by the duration of an
    interval; the parser only produces durations of at least 1.  For a
    duration of 0 JavaScript answers Infinity or NaN where [Q] answers 0;
    the sustain fractions computed from it are clamped either way. *)

From Stdlib Require Import ZArith QArith Qround Qabs Lia Lqa.
From Stdlib Require Import List String Ascii Bool DecimalString.
From Stdlib Require PrimFloat.
Import ListNotations.

Local Open Scope Q_scope.

(* ================================================================== *)
(** * Definitions *)
(* ================================================================== *)

(** ** The fragment of JavaScript arithmetic the sources use *)

Module JS.

Definition number : Type := Q.

(** [x > y], [x >= y], [x < y], [x <= y] *)
Definition gtb (x y : number) : bool := negb (Qle_bool x y).
Definition geb (x y : number) : bool := Qle_bool y x.
Definition ltb (x y : number) : bool := negb (Qle_bool y x).
Definition leb (x y : number) : bool := Qle_bool x y.

(** [Math.max(a, b)] and [Math.min(a, b)] *)
Definition Math_max (a b : number) : number := if Qle_bool a b then b else a.
Definition Math_min (a b : number) : number := if Qle_bool a b then a else b.

(** [Math.round(x)]: the integer nearest to [x], ties towards +infinity. *)
Definition Math_round (x : number) : Z := Qfloor (x + (1 # 2)).

(** [Math.floor(x)] *)
Definition Math_floor (x : number) : Z := Qfloor x.

(** [Math.max(...xs)] on a non-empty array.  On the empty array JavaScript
    answers -Infinity, which has no rational counterpart; every call site
    in the sources is guarded so that the array is non-empty, and the
    model answers 0 there. *)
Definition Math_max_spread (xs : list number) : number :=
  match xs with
  | [] => 0
  | x :: rest => fold_left Math_max rest x
  end.

(** [xs.reduce((a, b) => a + b, 0)] *)
Definition sum (xs : list number) : number :=
  fold_left Qplus xs 0.

Definition pow10 (digits : nat) : Z := (10 ^ Z.of_nat digits)%Z.

(** The integer [n] of Number.prototype.toFixed: after the sign has been
    split off, [n / 10^digits] is as close to [|x|] as possible, the larger
    [n] on a tie. *)
Definition toFixed_scaled (digits : nat) (x : number) : Z :=
  Qfloor (Qabs x * inject_Z (pow10 digits) + (1 # 2)).

(** [parseFloat(x.toFixed(digits))] *)
Definition toFixed_number (digits : nat) (x : number) : number :=
  let n := toFixed_scaled digits x in
  inject_Z (if ltb x 0 then - n else n) / inject_Z (pow10 digits).

(** Decimal digits of a non-negative integer. *)
Definition digits_of (n : Z) : string :=
  NilZero.string_of_uint (N.to_uint (Z.to_N n)).

Fixpoint zeros (k : nat) : string :=
  match k with
  | O => EmptyString
  | S k' => String "0" (zeros k')
  end.

Definition pad_left (width : nat) (s : string) : string :=
  (zeros (width - String.length s) ++ s)%string.

(** [x.toFixed(digits)] as the string JavaScript prints (for |x| < 1e21). *)
Definition toFixed (digits : nat) (x : number) : string :=
  let n := toFixed_scaled digits x in
  let whole := (n / pow10 digits)%Z in
  let frac := (n mod pow10 digits)%Z in
  ((if ltb x 0 then "-" else "")
     ++ digits_of whole
     ++ match digits with
        | O => ""
        | _ => "." ++ pad_left digits (digits_of frac)
        end)%string.

End JS.

Import JS.

(** ** Shared domain types (domain/types) *)

Inductive NFIStatus : Type := green | amber | red.

Record HRVData : Type := mkHRVData {
  currentHRV : number;
  avgHRV7d : number
}.

Definition NFIStatus_eqb (a b : NFIStatus) : bool :=
  match a, b with
  | green, green | amber, amber | red, red => true
  | _, _ => false
  end.

(** The zone and intensity of a strength prescription. *)
Module StrengthPrescription.
Inductive Zone : Type := fresh | tired | fatigued.
Inductive Intensity : Type := high | moderate | none.
Record t : Type := mk {
  zone : Zone;
  intensity : Intensity;
  focus : string
}.
End StrengthPrescription.

(** ** domain/sprint/core: SilverSprintLogic *)

Module SilverSprintLogic.

Definition RECOVERY_BASE_HOURS : number := 48.
Definition RECOVERY_AGE_HOURS_PER_YEAR : number := 6.
Definition RECOVERY_SRS_MAX_PENALTY_HOURS : number := 48.

Definition calculateNFI (currentVmax avgVmax : number) : number :=
  if gtb avgVmax 0
  then toFixed_number 3 (currentVmax / avgVmax)
  else 1.0.

Definition hrvScore (hrv : HRVData) : number :=
  let hrvRatio :=
    if gtb (avgHRV7d hrv) 0 then currentHRV hrv / avgHRV7d hrv else 1.0 in
  Math_min 100 (Math_max 0 ((hrvRatio - 0.75) / 0.30 * 100)).

Definition tsbScore (tsb : number) : number :=
  Math_min 100 (Math_max 0 ((tsb + 20) / 40 * 100)).

Definition nfiScore (nfi : number) : number :=
  Math_min 100 (Math_max 0 ((nfi - 0.90) / 0.10 * 100)).

Definition calculateSRS (hrv : HRVData) (tsb nfi : number) : Z :=
  Math_round (hrvScore hrv * 0.45 + tsbScore tsb * 0.30 + nfiScore nfi * 0.25).

Definition getRecoveryWindow (age srs : number) : number :=
  let ageTaxBase :=
    RECOVERY_BASE_HOURS + Math_max 0 ((age - 40) * RECOVERY_AGE_HOURS_PER_YEAR) in
  ageTaxBase
  + inject_Z (Math_round ((1 - srs / 100) * RECOVERY_SRS_MAX_PENALTY_HOURS)).

Definition getNFIStatus (nfi : number) : NFIStatus :=
  if gtb nfi 0.97 then green
  else if geb nfi 0.94 then amber
  else red.

Definition calculateFreshnessAdjustedSRS (hrv : HRVData) (tsb nfi : number) : Z :=
  let nfiStatus := getNFIStatus nfi in
  let isStale :=
    (NFIStatus_eqb nfiStatus red || NFIStatus_eqb nfiStatus amber) && geb tsb 0 in
  calculateSRS hrv tsb (if isStale then 1.0 else nfi).

Record SmartRecoveryWindow : Type := mkSmartRecoveryWindow {
  hours : number;
  srs : Z;
  staleVmax : bool
}.

Definition getSmartRecoveryWindow (age : number) (hrv : HRVData) (tsb nfi : number)
  : SmartRecoveryWindow :=
  let nfiStatus := getNFIStatus nfi in
  let stale :=
    (NFIStatus_eqb nfiStatus red || NFIStatus_eqb nfiStatus amber) && geb tsb 0 in
  let s := calculateFreshnessAdjustedSRS hrv tsb nfi in
  let h := getRecoveryWindow age (inject_Z s) in
  {| hours := h; srs := s; staleVmax := stale |}.

Definition getStrengthPrescription (tsb : number) : StrengthPrescription.t :=
  if geb tsb 0 then
    {| StrengthPrescription.zone := StrengthPrescription.fresh;
       StrengthPrescription.intensity := StrengthPrescription.high;
       StrengthPrescription.focus := "Max Strength — High Intensity, Low Volume" |}
  else if geb tsb (-20) then
    {| StrengthPrescription.zone := StrengthPrescription.tired;
       StrengthPrescription.intensity := StrengthPrescription.moderate;
       StrengthPrescription.focus := "Stiffened Plyometrics — Moderate Intensity" |}
  else
    {| StrengthPrescription.zone := StrengthPrescription.fatigued;
       StrengthPrescription.intensity := StrengthPrescription.none;
       StrengthPrescription.focus := "Rest or Active Mobility only" |}.

End SilverSprintLogic.

(** The weighted sum of [calculateSRS] once more, on IEEE 754 binary64 as
    the JavaScript engine computes it (for ordered, non-NaN arguments), to
    evaluate the one input of the design document that sits on a rounding
    tie. *)

Module Binary64.

Import PrimFloat.
Local Open Scope float_scope.
#[local] Set Warnings "-inexact-float".

Definition Math_max (a b : float) : float := if ltb a b then b else a.
Definition Math_min (a b : float) : float := if ltb b a then b else a.

Definition weightedSum (currentHRV avgHRV7d tsb nfi : float) : float :=
  let hrvRatio := if ltb 0 avgHRV7d then currentHRV / avgHRV7d else 1.0 in
  let hrvScore := Math_min 100 (Math_max 0 ((hrvRatio - 0.75) / 0.30 * 100)) in
  let tsbScore := Math_min 100 (Math_max 0 ((tsb + 20) / 40 * 100)) in
  let nfiScore := Math_min 100 (Math_max 0 ((nfi - 0.90) / 0.10 * 100)) in
  hrvScore * 0.45 + tsbScore * 0.30 + nfiScore * 0.25.

(** [calculateSRS({ currentHRV: 60, avgHRV7d: 60 }, 20, 1.0)] before
    [Math.round], and the value 92.5. *)
Definition ceilingSum : float := weightedSum 60 60 20 1.0.
Definition ninetyTwoAndAHalf : float := 92.5.

End Binary64.

(** ** domain/sprint/parser: SprintParser *)

Inductive IntervalType : Type :=
  | Acceleration
  | MaxVelocity
  | SpeedEndurance
  | SpecialEndurance.

Module TrackInterval.
Record t : Type := mk {
  type : IntervalType;
  distance : number;
  vMax : number;
  duration : number;
  flyingVelocity : number
}.
End TrackInterval.

(** The argument of [parseTrackSession]; a missing stream is [None]. *)
Record Activity : Type := mkActivity {
  velocity_smooth : option (list number)
}.

Module SprintParser.

Definition MOVING_THRESHOLD : number := 1.0.
Definition MIN_REP_DISTANCE : number := 10.

Definition classifyType (distance : number) : IntervalType :=
  if leb distance 40 then Acceleration
  else if leb distance 80 then MaxVelocity
  else if leb distance 150 then SpeedEndurance
  else SpecialEndurance.

(** [xs.length] as a number *)
Definition length_number (xs : list number) : number :=
  inject_Z (Z.of_nat (List.length xs)).

(** [xs.slice(i, j)] for [0 <= i <= j] *)
Definition slice (xs : list number) (i j : nat) : list number :=
  firstn (j - i) (skipn i xs).

Definition computeFlyingVelocity (burst : list number) : number :=
  if Nat.eqb (List.length burst) 0 then 0
  else if Nat.leb (List.length burst) 3 then
    sum burst / length_number burst
  else
    let windowSize := Nat.min 3 (List.length burst) in
    (* for (let i = 0; i <= burst.length - windowSize; i++) *)
    let bestAvg :=
      fold_left
        (fun bestAvg i =>
           let windowAvg :=
             sum (slice burst i (i + windowSize))
             / inject_Z (Z.of_nat windowSize) in
           if gtb windowAvg bestAvg then windowAvg else bestAvg)
        (seq 0 (List.length burst - windowSize + 1))
        0 in
    toFixed_number 2 bestAvg.

Definition classifyBurst (burst : list number) : option TrackInterval.t :=
  let distance := sum burst in
  if ltb distance MIN_REP_DISTANCE then None
  else
    let vMax := Math_max_spread burst in
    let flyingVelocity := computeFlyingVelocity burst in
    let type := classifyType distance in
    Some {| TrackInterval.type := type;
            TrackInterval.distance := inject_Z (Math_round distance);
            TrackInterval.vMax := vMax;
            TrackInterval.duration := length_number burst;
            TrackInterval.flyingVelocity := flyingVelocity |}.

(** The two mutable locals of [parseTrackSession]. *)
Record LoopState : Type := mkLoopState {
  intervals : list TrackInterval.t;
  currentBurst : list number
}.

(** One iteration of the loop body on the sample [v]. *)
Definition step (st : LoopState) (v : number) : LoopState :=
  if geb v MOVING_THRESHOLD then
    {| intervals := intervals st; currentBurst := currentBurst st ++ [v] |}
  else if Nat.ltb 0 (List.length (currentBurst st)) then
    {| intervals :=
         match classifyBurst (currentBurst st) with
         | Some interval => intervals st ++ [interval]
         | None => intervals st
         end;
       currentBurst := [] |}
  else st.

(** The loop runs over [i = 0 .. stream.length] and reads
    [stream[i]] below the length and 0 at it: the samples followed by one
    trailing 0. *)
Definition parseTrackSession (activity : Activity) : list TrackInterval.t :=
  let stream :=
    match velocity_smooth activity with
    | Some s => s
    | None => []
    end in
  intervals
    (fold_left step (stream ++ [0]) {| intervals := []; currentBurst := [] |}).


(** ... and the flying velocity: the best mean over the sliding windows of
    size min(3, burst length), rounded to two decimals. *)
Definition windowMeans (burst : list number) : list number :=
  let windowSize := Nat.min 3 (List.length burst) in
  map (fun i =>
         sum (slice burst i (i + windowSize)) / inject_Z (Z.of_nat windowSize))
      (seq 0 (List.length burst - windowSize + 1)).

Definition documentedFlyingVelocity (burst : list number) : number :=
  toFixed_number 2 (Math_max_spread (windowMeans burst)).

End SprintParser.

(** ** domain/sprint/race-estimator: RaceEstimator *)

Definition AGE_DEGRADATION_PER_YEAR : number := 0.007.

Inductive Confidence : Type := high | moderate | low.

(** The literal type [100 | 200 | 400]. *)
Inductive RaceDistance : Type := D100 | D200 | D400.

Definition raceMetres (distance : RaceDistance) : number :=
  match distance with
  | D100 => 100
  | D200 => 200
  | D400 => 400
  end.

Module RacePhaseBreakdown.
Record t : Type := mk {
  reaction : number;
  acceleration : number;
  maxVelocity : number;
  deceleration : number
}.
End RacePhaseBreakdown.

(** The [note] text of the source record is left out: it is assembled for
    display only, and neither another field nor a property below reads it. *)
Module RaceEstimate.
Record t : Type := mk {
  distance : RaceDistance;
  predictedTime : number;
  display : string;
  confidence : Confidence;
  phases : RacePhaseBreakdown.t
}.
End RaceEstimate.

Module TrainingProfile.
Record t : Type := mk {
  speedEnduranceIndex : number;
  bestFlyingVelocity : number;
  avgAccelerationTime : number;
  seIntervalCount : nat;
  accelIntervalCount : nat
}.
End TrainingProfile.

Module RaceEstimatorInput.
Record t : Type := mk {
  bestVmax60d : number;
  avgVmax : number;
  nfi : number;
  nfiStatus : NFIStatus;
  tsb : number;
  age : number;
  activityCount : number;
  trainingIntervals : option (list TrackInterval.t)
}.
End RaceEstimatorInput.

Module RaceEstimator.

Definition REACTION_TIME : number := 0.15.

(** [Record<100 | 200 | 400, number>] *)
Record SustainFractions : Type := mkSustainFractions {
  at100 : number;
  at200 : number;
  at400 : number
}.

Definition BASE_SPEED_SUSTAIN : SustainFractions :=
  {| at100 := 0.91; at200 := 0.88; at400 := 0.78 |}.

(** [fractions[distance]] *)
Definition fractionAt (fractions : SustainFractions) (distance : RaceDistance) : number :=
  match distance with
  | D100 => at100 fractions
  | D200 => at200 fractions
  | D400 => at400 fractions
  end.

Definition isEndurance (i : TrackInterval.t) : bool :=
  match TrackInterval.type i with
  | SpeedEndurance | SpecialEndurance => true
  | _ => false
  end.

Definition isAcceleration (i : TrackInterval.t) : bool :=
  match TrackInterval.type i with
  | Acceleration => true
  | _ => false
  end.

Definition count (xs : list number) : number :=
  inject_Z (Z.of_nat (List.length xs)).

Definition buildTrainingProfile (intervals : list TrackInterval.t) (peakVmax : number)
  : TrainingProfile.t :=
  let seIntervals := filter isEndurance intervals in
  let speedEnduranceIndex :=
    if Nat.ltb 0 (List.length seIntervals) && gtb peakVmax 0 then
      let ratios :=
        map (fun i =>
               let avgSpeed := TrackInterval.distance i / TrackInterval.duration i in
               avgSpeed / peakVmax) seIntervals in
      sum ratios / count ratios
    else 0 in
  let flyingVelocities :=
    map TrackInterval.flyingVelocity
        (filter (fun i => gtb (TrackInterval.flyingVelocity i) 0) intervals) in
  let bestFlyingVelocity :=
    if Nat.ltb 0 (List.length flyingVelocities)
    then Math_max_spread flyingVelocities
    else 0 in
  let accelIntervals := filter isAcceleration intervals in
  let avgAccelerationTime :=
    if Nat.ltb 0 (List.length accelIntervals) then
      let accelTimes := map TrackInterval.duration accelIntervals in
      sum accelTimes / count accelTimes
    else 0 in
  {| TrainingProfile.speedEnduranceIndex := speedEnduranceIndex;
     TrainingProfile.bestFlyingVelocity := bestFlyingVelocity;
     TrainingProfile.avgAccelerationTime := avgAccelerationTime;
     TrainingProfile.seIntervalCount := List.length seIntervals;
     TrainingProfile.accelIntervalCount := List.length accelIntervals |}.

Definition getDynamicSustainFractions (profile : option TrainingProfile.t)
  : SustainFractions :=
  let base := BASE_SPEED_SUSTAIN in
  match profile with
  | None => base
  | Some profile =>
      let base :=
        if Nat.leb 2 (TrainingProfile.seIntervalCount profile)
           && gtb (TrainingProfile.speedEnduranceIndex profile) 0
        then
          let seDeviation := TrainingProfile.speedEnduranceIndex profile - 0.85 in
          {| at100 := at100 base;
             at200 := Math_max 0.82 (Math_min 0.93 (at200 base + seDeviation * 0.5));
             at400 := Math_max 0.70 (Math_min 0.85 (at400 base + seDeviation * 0.7)) |}
        else base in
      if Nat.leb 3 (TrainingProfile.accelIntervalCount profile)
         && gtb (TrainingProfile.avgAccelerationTime profile) 0
      then
        if ltb (TrainingProfile.avgAccelerationTime profile) 4.5 then
          let bonus := (4.5 - TrainingProfile.avgAccelerationTime profile) * 0.01 in
          {| at100 := Math_min 0.95 (at100 base + bonus);
             at200 := at200 base;
             at400 := at400 base |}
        else base
      else base
  end.

Definition getReadinessModifier (nfi tsb : number) : number :=
  let mod0 := 1.0 in
  let mod1 := mod0 + (nfi - 1.0) * 0.33 in
  let mod2 :=
    if gtb tsb 5 then mod1 + Math_min (tsb * 0.001) 0.01
    else if ltb tsb (-10) then mod1 + Math_max (tsb * 0.0005) (-0.015)
    else mod1 in
  Math_max 0.95 (Math_min 1.03 mod2).

Definition computePhaseBreakdown (distance : RaceDistance)
    (effectiveVmax avgSpeed : number) (profile : option TrainingProfile.t)
  : RacePhaseBreakdown.t :=
  let reaction := REACTION_TIME in
  let totalRunTime := raceMetres distance / avgSpeed in
  let accelDistance : number :=
    if leb (raceMetres distance) 100 then 30
    else if leb (raceMetres distance) 200 then 40 else 50 in
  let accelAvgSpeed := effectiveVmax * 0.55 in
  let accelerationTime := accelDistance / accelAvgSpeed in
  let accelerationTime :=
    match profile with
    | Some profile =>
        if Nat.leb 2 (TrainingProfile.accelIntervalCount profile)
           && gtb (TrainingProfile.avgAccelerationTime profile) 0
        then TrainingProfile.avgAccelerationTime profile * (accelDistance / 30)
        else accelerationTime
    | None => accelerationTime
    end in
  let maxVelDistance :=
    if leb (raceMetres distance) 100 then raceMetres distance - accelDistance
    else if leb (raceMetres distance) 200
         then Math_min 60 (raceMetres distance - accelDistance)
         else Math_min 50 (raceMetres distance - accelDistance) in
  let maxVelocityTime := maxVelDistance / effectiveVmax in
  let decelTime := Math_max 0 (totalRunTime - accelerationTime - maxVelocityTime) in
  {| RacePhaseBreakdown.reaction := toFixed_number 2 reaction;
     RacePhaseBreakdown.acceleration := toFixed_number 2 accelerationTime;
     RacePhaseBreakdown.maxVelocity := toFixed_number 2 maxVelocityTime;
     RacePhaseBreakdown.deceleration := toFixed_number 2 decelTime |}.

Definition getConfidence (input : RaceEstimatorInput.t)
    (profile : option TrainingProfile.t) : Confidence :=
  let hasGoodHistory :=
    match profile with
    | Some profile =>
        Nat.leb 2 (TrainingProfile.seIntervalCount profile)
        && Nat.leb 2 (TrainingProfile.accelIntervalCount profile)
    | None => false
    end in
  if geb (RaceEstimatorInput.activityCount input) 10
     && gtb (RaceEstimatorInput.bestVmax60d input) 0 && hasGoodHistory then high
  else if geb (RaceEstimatorInput.activityCount input) 10
          && gtb (RaceEstimatorInput.bestVmax60d input) 0 then high
  else if geb (RaceEstimatorInput.activityCount input) 3 then moderate
  else low.

Definition formatTime (seconds : number) : string :=
  if leb seconds 0 then "--"%string
  else if ltb seconds 60 then toFixed 2 seconds
  else
    let mins := Math_floor (seconds / 60) in
    let secs := seconds - inject_Z mins * 60 in
    (digits_of mins ++ ":" ++ (if ltb secs 10 then "0" else "") ++ toFixed 2 secs)%string.

(** The locals of [estimateDistance], in the order the source binds them. *)

Definition peakVmaxOf (input : RaceEstimatorInput.t) : number :=
  Math_max (RaceEstimatorInput.bestVmax60d input) (RaceEstimatorInput.avgVmax input).

Definition profileOf (input : RaceEstimatorInput.t) : option TrainingProfile.t :=
  match RaceEstimatorInput.trainingIntervals input with
  | Some trainingIntervals =>
      if Nat.ltb 0 (List.length trainingIntervals)
      then Some (buildTrainingProfile trainingIntervals (peakVmaxOf input))
      else None
  | None => None
  end.

Definition effectiveVmaxOf (input : RaceEstimatorInput.t) : number :=
  let peakVmax := peakVmaxOf input in
  match profileOf input with
  | Some profile =>
      if gtb (TrainingProfile.bestFlyingVelocity profile) 0 then
        let effectiveVmax :=
          TrainingProfile.bestFlyingVelocity profile * 0.6 + peakVmax * 0.4 in
        Math_min effectiveVmax (peakVmax * 1.02)
      else peakVmax
  | None => peakVmax
  end.

Definition avgSpeedOf (distance : RaceDistance) (input : RaceEstimatorInput.t) : number :=
  let sustainFractions := getDynamicSustainFractions (profileOf input) in
  let sustainFraction := fractionAt sustainFractions distance in
  let avgSpeed := effectiveVmaxOf input * sustainFraction in
  let agePenalty :=
    if gtb (RaceEstimatorInput.age input) 35
    then 1 - (RaceEstimatorInput.age input - 35) * AGE_DEGRADATION_PER_YEAR
    else 1 in
  let avgSpeed := avgSpeed * Math_max agePenalty 0.65 in
  let readinessModifier :=
    getReadinessModifier (RaceEstimatorInput.nfi input) (RaceEstimatorInput.tsb input) in
  avgSpeed * readinessModifier.

Definition rawTimeOf (distance : RaceDistance) (input : RaceEstimatorInput.t) : number :=
  raceMetres distance / avgSpeedOf distance input + REACTION_TIME.

Definition estimateDistance (distance : RaceDistance) (input : RaceEstimatorInput.t)
  : RaceEstimate.t :=
  let peakVmax := peakVmaxOf input in
  if leb peakVmax 0 then
    {| RaceEstimate.distance := distance;
       RaceEstimate.predictedTime := 0;
       RaceEstimate.display := "--";
       RaceEstimate.confidence := low;
       RaceEstimate.phases :=
         {| RacePhaseBreakdown.reaction := 0;
            RacePhaseBreakdown.acceleration := 0;
            RacePhaseBreakdown.maxVelocity := 0;
            RacePhaseBreakdown.deceleration := 0 |} |}
  else
    let profile := profileOf input in
    let effectiveVmax := effectiveVmaxOf input in
    let avgSpeed := avgSpeedOf distance input in
    let rawTime := rawTimeOf distance input in
    let predictedTime := toFixed_number 2 rawTime in
    let confidence := getConfidence input profile in
    let phases := computePhaseBreakdown distance effectiveVmax avgSpeed profile in
    {| RaceEstimate.distance := distance;
       RaceEstimate.predictedTime := predictedTime;
       RaceEstimate.display := formatTime predictedTime;
       RaceEstimate.confidence := confidence;
       RaceEstimate.phases := phases |}.

Definition estimate (input : RaceEstimatorInput.t) : list RaceEstimate.t :=
  let distances := [D100; D200; D400] in
  map (fun d => estimateDistance d input) distances.

End RaceEstimator.

(** ** domain/sprint/workouts: stale-Vmax detection and SprintWorkoutGenerator *)

Module SprintBlock.
Record t : Type := mk {
  name : string;
  reps : Z;
  distance : string;
  rest : string;
  intensity : string;
  cue : string
}.
End SprintBlock.

Module SprintWorkout.
Record t : Type := mk {
  name : string;
  status : NFIStatus;
  rationale : string;
  warmup : list string;
  mainSet : list SprintBlock.t;
  cooldown : list string;
  totalSprintVolume : string;
  workoutDescription : string
}.
End SprintWorkout.

(** Optional context for workout selection; an absent argument is [None]. *)
Record SprintContext : Type := mkSprintContext {
  tsb : number
}.

Definition isStaleVmax (nfiStatus : NFIStatus) (context : option SprintContext) : bool :=
  match context with
  | None => false
  | Some c =>
      (NFIStatus_eqb nfiStatus red || NFIStatus_eqb nfiStatus amber) && geb (tsb c) 0
  end.

Module SprintWorkoutGenerator.

Local Open Scope string_scope.

Definition newline : string := String (ascii_of_nat 10) EmptyString.

(** [lines.join(sep)] *)
Definition join (sep : string) (lines : list string) : string :=
  String.concat sep lines.

(** The percentage [(nfi * 100).toFixed(1)] the texts embed. *)
Definition nfiPercent (nfi : number) : string := toFixed 1 (nfi * 100)%Q.

Definition formatDescription (status : NFIStatus) (nfi : number)
    (warmup : list string) (mainSet : list SprintBlock.t)
    (cooldown : list string) (volume : string) : string :=
  let statusLabel :=
    match status with
    | green => "🟢 GREEN"
    | amber => "🟡 AMBER"
    | red => "🔴 RED"
    end in
  let lines :=
    List.concat
      [ [ "🏃 SilverSprint Recommended Session";
          "Status: " ++ statusLabel ++ " (NFI: " ++ nfiPercent nfi ++ "%)";
          "";
          "WARM-UP" ];
        map (fun w => "• " ++ w) warmup;
        [ ""; "MAIN SET" ];
        map (fun b =>
               "• " ++ digits_of (SprintBlock.reps b) ++ "× " ++ SprintBlock.name b
                 ++ " — " ++ SprintBlock.distance b
                 ++ " @ " ++ SprintBlock.intensity b
                 ++ " | Rest: " ++ SprintBlock.rest b
                 ++ newline ++ "  → " ++ SprintBlock.cue b) mainSet;
        [ ""; "COOL-DOWN" ];
        map (fun c => "• " ++ c) cooldown;
        [ ""; "Total Sprint Volume: " ++ volume ] ] in
  join newline lines.

Definition greenWorkout (nfi : number) : SprintWorkout.t :=
  let warmup :=
    [ "10 min easy jog";
      "Dynamic stretching circuit (leg swings, walking lunges, high knees)";
      "3 × 60m progressive build-ups (60%, 75%, 90%)" ] in
  let mainSet :=
    [ SprintBlock.mk "Block Starts" 3 "30m" "3–4 min walk" "100%"
        "Explosive first step, drive for 15m then transition to upright.";
      SprintBlock.mk "Flying 30s" 3 "30m (20m run-in)" "4 min walk-back" "100%"
        "Hit top speed in the run-in zone, maintain mechanics through the timing gates.";
      SprintBlock.mk "Full 60m" 2 "60m from blocks" "5–6 min full recovery" "95–100%"
        "Aggressive drive phase, upright by 30m, hold form to the line." ] in
  let cooldown :=
    [ "10 min easy jog";
      "Static stretching — hamstrings, hip flexors, calves (30s holds)" ] in
  {| SprintWorkout.name := "Max Velocity — Neural Priming Session";
     SprintWorkout.status := green;
     SprintWorkout.rationale :=
       "NFI at " ++ nfiPercent nfi
         ++ "% — CNS is fully primed. Today is a day for maximal speed work with full recovery between reps.";
     SprintWorkout.warmup := warmup;
     SprintWorkout.mainSet := mainSet;
     SprintWorkout.cooldown := cooldown;
     SprintWorkout.totalSprintVolume := "~300m total sprint distance";
     SprintWorkout.workoutDescription :=
       formatDescription green nfi warmup mainSet cooldown "~300m" |}.

Definition amberWorkout (nfi : number) : SprintWorkout.t :=
  let warmup :=
    [ "10 min easy jog";
      "Dynamic stretching circuit";
      "2 × 60m build-ups (60%, 80%)" ] in
  let mainSet :=
    [ SprintBlock.mk "Wicket Runs" 4 "20m (mini-hurdle spacing)" "2 min walk-back"
        "Controlled"
        "Focus on cadence and front-side mechanics. Smooth, not forced.";
      SprintBlock.mk "Short Accelerations" 3 "20m from 3-point stance" "3 min walk"
        "90%"
        "Clean lines — shin angle, arm drive, no over-striding.";
      SprintBlock.mk "A-Skip + B-Skip Complex" 3 "30m each drill" "90s walk-back"
        "Technical"
        "Tall posture, active ground contact, rhythmic tempo." ] in
  let cooldown :=
    [ "10 min easy jog";
      "Light stretching + foam roll" ] in
  {| SprintWorkout.name := "Technical Sprint — CNS Management Session";
     SprintWorkout.status := amber;
     SprintWorkout.rationale :=
       "NFI at " ++ nfiPercent nfi
         ++ "% — moderate CNS suppression. Focus on technical quality with reduced intensity. Keep total volume low.";
     SprintWorkout.warmup := warmup;
     SprintWorkout.mainSet := mainSet;
     SprintWorkout.cooldown := cooldown;
     SprintWorkout.totalSprintVolume := "~150m sprint equivalent";
     SprintWorkout.workoutDescription :=
       formatDescription amber nfi warmup mainSet cooldown "~150m" |}.

Definition redWorkout (nfi : number) : SprintWorkout.t :=
  let warmup := [ "5 min easy walk" ] in
  let mainSet :=
    [ SprintBlock.mk "Active Recovery Walk" 1 "15–20 min" "N/A" "Very Low"
        "Easy pace, focus on breathing and relaxation.";
      SprintBlock.mk "Dynamic Mobility Circuit" 2 "10 min total" "Continuous" "Low"
        "Leg swings, hip circles, ankle mobilization. No ballistic movements." ] in
  let cooldown :=
    [ "Foam rolling — quads, hamstrings, glutes (10 min)";
      "Gentle static stretching (optional)" ] in
  {| SprintWorkout.name := "Recovery — Neural Restoration";
     SprintWorkout.status := red;
     SprintWorkout.rationale :=
       "NFI at " ++ nfiPercent nfi
         ++ "% — significant neural fatigue detected. No sprinting today. Focus on recovery to restore CNS readiness.";
     SprintWorkout.warmup := warmup;
     SprintWorkout.mainSet := mainSet;
     SprintWorkout.cooldown := cooldown;
     SprintWorkout.totalSprintVolume := "0m sprint distance";
     SprintWorkout.workoutDescription :=
       formatDescription red nfi warmup mainSet cooldown "0m" |}.

Definition reactivationWorkout (nfi tsb : number) : SprintWorkout.t :=
  let warmup :=
    [ "10 min easy jog";
      "Dynamic stretching circuit (leg swings, walking lunges, high knees)";
      "4 × 60m progressive build-ups (50%, 65%, 80%, 90%)" ] in
  let mainSet :=
    [ SprintBlock.mk "Standing Accelerations" 3 "30m" "3 min walk-back" "90–95%"
        "Smooth acceleration. Focus on shin angles and arm drive — no straining.";
      SprintBlock.mk "Flying 20s" 3 "20m (15m run-in)" "3 min walk-back" "93–97%"
        "Re-engage top-speed neural pathways. Relaxed face, fast feet, tall hips.";
      SprintBlock.mk "Wicket Runs" 3 "20m (mini-hurdle spacing)" "2 min walk-back"
        "Controlled"
        "Cadence and front-side mechanics. Reinforce stride pattern." ] in
  let cooldown :=
    [ "10 min easy jog";
      "Static stretching — hamstrings, hip flexors, calves (30s holds)" ] in
  {| SprintWorkout.name := "Neural Re-Activation — Restore Sprint Speed";
     SprintWorkout.status := red;
     SprintWorkout.rationale :=
       "NFI at " ++ nfiPercent nfi ++ "% but TSB is "
         ++ (if gtb tsb 0 then "+" else "") ++ toFixed 1 tsb
         ++ " (fresh). Low Vmax is likely from detraining, not fatigue. This controlled re-activation session will restore neuromuscular coordination.";
     SprintWorkout.warmup := warmup;
     SprintWorkout.mainSet := mainSet;
     SprintWorkout.cooldown := cooldown;
     SprintWorkout.totalSprintVolume := "~150m sprint distance";
     SprintWorkout.workoutDescription :=
       formatDescription red nfi warmup mainSet cooldown "~150m" |}.

(** The workout of the plain status branch (the [switch] of [generate]). *)
Definition statusWorkout (nfiStatus : NFIStatus) (nfi : number) : SprintWorkout.t :=
  match nfiStatus with
  | green => greenWorkout nfi
  | amber => amberWorkout nfi
  | red => redWorkout nfi
  end.

(** [context!.tsb]: the branch that reads it is only entered when
    [isStaleVmax] answered true, which it never does without a context. *)
Definition generate (nfiStatus : NFIStatus) (nfi : number)
    (context : option SprintContext) : SprintWorkout.t :=
  if isStaleVmax nfiStatus context then
    match context with
    | Some c => reactivationWorkout nfi (tsb c)
    | None => statusWorkout nfiStatus nfi
    end
  else statusWorkout nfiStatus nfi.

End SprintWorkoutGenerator.

(** ** logic/periodization: StrengthPeriodization *)

Module ExerciseType.
Inductive t : Type := strength | plyometric | mobility | rest.
End ExerciseType.

(** [reps: number | string] *)
Inductive Reps : Type :=
  | RepsCount (n : Z)
  | RepsText (text : string).

(** The optional fields [weightGuidance?] and [bwMultiplier?] are [None]
    when absent. *)
Module Exercise.
Record t : Type := mk {
  name : string;
  type : ExerciseType.t;
  sets : Z;
  reps : Reps;
  intensity : string;
  weightGuidance : option string;
  bwMultiplier : option number
}.
End Exercise.

Module PeriodizationPrescription.
Record t : Type := mk {
  zone : StrengthPrescription.Zone;
  exercises : list Exercise.t
}.
End PeriodizationPrescription.

Module StrengthPeriodization.

Local Open Scope string_scope.

Definition FRESH_EXERCISES : list Exercise.t :=
  [ Exercise.mk "Trap Bar Deadlift" ExerciseType.strength 3 (RepsCount 3) "85%"
      (Some "~1.7× BW (85% est. 1RM)") (Some 1.7%Q);
    Exercise.mk "Weighted Step-Up" ExerciseType.strength 3 (RepsCount 5) "80%"
      (Some "~0.5× BW per hand (DB)") (Some 0.5%Q);
    Exercise.mk "Hang Power Clean" ExerciseType.strength 3 (RepsCount 3) "80%"
      (Some "~0.95× BW (80% est. 1RM)") (Some 0.95%Q) ].

Definition TIRED_EXERCISES : list Exercise.t :=
  [ Exercise.mk "Pogo Jumps" ExerciseType.plyometric 3 (RepsCount 10) "Max Stiffness"
      (Some "Bodyweight") None;
    Exercise.mk "Hurdle Hops" ExerciseType.plyometric 3 (RepsCount 6) "Reactive"
      (Some "Bodyweight") None;
    Exercise.mk "Single-Leg Bounds" ExerciseType.plyometric 3 (RepsCount 8) "Moderate"
      (Some "Bodyweight") None ].

Definition FATIGUED_EXERCISES : list Exercise.t :=
  [ Exercise.mk "Foam Rolling" ExerciseType.mobility 1 (RepsText "10 min") "Low" None None;
    Exercise.mk "Hip Flexor Stretch" ExerciseType.mobility 2 (RepsText "60s hold") "Low" None None;
    Exercise.mk "Active Walking" ExerciseType.rest 1 (RepsText "15 min") "Very Low" None None ].

Definition getPrescription (tsb : number) : PeriodizationPrescription.t :=
  let base := SilverSprintLogic.getStrengthPrescription tsb in
  match StrengthPrescription.zone base with
  | StrengthPrescription.fresh =>
      {| PeriodizationPrescription.zone := StrengthPrescription.fresh;
         PeriodizationPrescription.exercises := FRESH_EXERCISES |}
  | StrengthPrescription.tired =>
      {| PeriodizationPrescription.zone := StrengthPrescription.tired;
         PeriodizationPrescription.exercises := TIRED_EXERCISES |}
  | StrengthPrescription.fatigued =>
      {| PeriodizationPrescription.zone := StrengthPrescription.fatigued;
         PeriodizationPrescription.exercises := FATIGUED_EXERCISES |}
  end.

(** [!exercise.bwMultiplier] holds for a missing multiplier and for 0;
    [null] is [None]. *)
Definition estimateWeightKg (exercise : Exercise.t) (bodyWeightKg : number)
  : option Z :=
  match Exercise.bwMultiplier exercise with
  | None => None
  | Some multiplier =>
      if Qeq_bool multiplier 0 then None
      else Some (Math_round (multiplier * bodyWeightKg)%Q)
  end.

End StrengthPeriodization.

(** ** domain/sprint/race-plan: SprintRacePlanner *)

Module SprintRaceEvent.
Record t : Type := mk {
  id : string;
  name : string;
  date : string;
  distanceM : number;
  daysUntil : number
}.
End SprintRaceEvent.

Module RacePlanPhase.
Record t : Type := mk {
  label : string;
  timeframe : string;
  focus : string;
  sessions : list string;
  strengthNote : string
}.
End RacePlanPhase.

Module PriorRaceContext.
Record t : Type := mk {
  priorityRaceName : string;
  priorityRaceDate : string;
  priorityRaceDaysUntil : number;
  priorityPhaseLabel : string;
  recoveryDaysAfter : number;
  effectiveTrainingDays : number;
  postRecoveryPhase : RacePlanPhase.t;
  isConstrained : bool
}.
End PriorRaceContext.

(** [priorRaceContext?] is [None] when the property is absent. *)
Module SprintRacePlan.
Record t : Type := mk {
  race : SprintRaceEvent.t;
  goalTime : string;
  currentPhase : RacePlanPhase.t;
  priorRaceContext : option PriorRaceContext.t
}.
End SprintRacePlan.

Module SprintRacePlanner.

Local Open Scope string_scope.

(** An entry of [PHASES]; [maxDays: Infinity] is [None]. *)
Record PhaseEntry : Type := mkPhaseEntry {
  maxDays : option number;
  phase : RacePlanPhase.t
}.

Definition RACE_PREP : RacePlanPhase.t :=
  {| RacePlanPhase.label := "Race Prep";
     RacePlanPhase.timeframe := "1–3 days out";
     RacePlanPhase.focus := "Stay sharp — rest CNS, no max efforts";
     RacePlanPhase.sessions :=
       [ "2–3 × 30m accelerations at 80%";
         "Activation strides only, no near-maximal work";
         "Full race warm-up protocol rehearsal" ];
     RacePlanPhase.strengthNote := "No strength work — full CNS rest" |}.

Definition FINAL_TAPER : RacePlanPhase.t :=
  {| RacePlanPhase.label := "Final Taper";
     RacePlanPhase.timeframe := "4–7 days out";
     RacePlanPhase.focus := "Reduce volume, maintain sharpness";
     RacePlanPhase.sessions :=
       [ "3 × 30m block starts at 95%";
         "2 × 60m build-up runs";
         "Technical drills: A-skips, B-skips, wickets" ];
     RacePlanPhase.strengthNote :=
       "Bodyweight plyometrics only (pogo jumps, hurdle hops)" |}.

Definition RACE_SPECIFIC : RacePlanPhase.t :=
  {| RacePlanPhase.label := "Race-Specific";
     RacePlanPhase.timeframe := "1–2 weeks out";
     RacePlanPhase.focus := "Race-pace efforts + taper begins";
     RacePlanPhase.sessions :=
       [ "4 × race-distance at 90–95%";
         "Block start practice: 6 × 20m";
         "Speed endurance: 2 × 150m @ 85%" ];
     RacePlanPhase.strengthNote :=
       "Strength maintenance: 2 sets only, reduce volume 40%" |}.

Definition SHARPEN : RacePlanPhase.t :=
  {| RacePlanPhase.label := "Sharpen";
     RacePlanPhase.timeframe := "2–4 weeks out";
     RacePlanPhase.focus := "Speed development & event specificity";
     RacePlanPhase.sessions :=
       [ "5 × 60m flying starts at 95%";
         "3 × race distance at 90%";
         "Speed endurance: 2–3 × 200m at 85%" ];
     RacePlanPhase.strengthNote :=
       "Moderate strength: plyometrics + power lifts at 75%" |}.

Definition BUILD : RacePlanPhase.t :=
  {| RacePlanPhase.label := "Build";
     RacePlanPhase.timeframe := "4+ weeks out";
     RacePlanPhase.focus := "Max velocity development & strength base";
     RacePlanPhase.sessions :=
       [ "6 × 30m acceleration sprints";
         "3 × 60m max velocity (flying start)";
         "Flying 30s: 4–5 reps at >95%" ];
     RacePlanPhase.strengthNote :=
       "Full strength block: max effort lifts at 85–90%" |}.

Definition PHASES : list PhaseEntry :=
  [ {| maxDays := Some 3%Q; phase := RACE_PREP |};
    {| maxDays := Some 7%Q; phase := FINAL_TAPER |};
    {| maxDays := Some 14%Q; phase := RACE_SPECIFIC |};
    {| maxDays := Some 28%Q; phase := SHARPEN |};
    {| maxDays := None; phase := BUILD |} ].

Definition DEFERRED_PHASE : RacePlanPhase.t :=
  {| RacePlanPhase.label := "Deferred";
     RacePlanPhase.timeframe := "Until prior race";
     RacePlanPhase.focus :=
       "Support primary race taper — no conflicting high-intensity work";
     RacePlanPhase.sessions :=
       [ "Short acceleration strides only (20–30m)";
         "Technical drills at low intensity";
         "Active recovery: mobility & easy running" ];
     RacePlanPhase.strengthNote :=
       "Bodyweight mobility only — no heavy lifting while in taper for prior race" |}.

Definition COMPLEMENTARY_BUILD_NOTE : string :=
  "Build phase serves both races — Vmax development transfers directly.".

(** [daysUntil <= p.maxDays] *)
Definition withinMaxDays (daysUntil : number) (p : PhaseEntry) : bool :=
  match maxDays p with
  | Some bound => leb daysUntil bound
  | None => true
  end.

(** [PHASES.find(...)!]: the last entry accepts every number of days, so
    the search does not come back empty; the model names [BUILD] for that
    case. *)
Definition getPhase (daysUntil : number) : RacePlanPhase.t :=
  match find (withinMaxDays daysUntil) PHASES with
  | Some entry => phase entry
  | None => BUILD
  end.

Definition recoveryDays (distanceM : number) : number :=
  if leb distanceM 100 then 4
  else if leb distanceM 200 then 5
  else if leb distanceM 400 then 7
  else 9.

(** The locals [sustainFraction], [agePenalty] and [time] of
    [estimateRaceTime]. *)
Definition planSustainFraction (distanceM : number) : number :=
  if leb distanceM 60 then 0.94
  else if leb distanceM 100 then 0.91
  else if leb distanceM 200 then 0.88
  else if leb distanceM 400 then 0.78
  else if leb distanceM 600 then 0.70
  else 0.65.

Definition planAgePenalty (age : number) : number :=
  if gtb age 35
  then Math_max (1 - (age - 35) * AGE_DEGRADATION_PER_YEAR) 0.65
  else 1.

Definition planTime (distanceM bestVmax age : number) : number :=
  let avgSpeed := bestVmax * planSustainFraction distanceM * planAgePenalty age in
  distanceM / avgSpeed + 0.15.

Definition estimateRaceTime (distanceM bestVmax age : number) : string :=
  if leb bestVmax 0 then "--"
  else
    let time := planTime distanceM bestVmax age in
    if ltb time 60 then toFixed 2 time ++ "s"
    else
      let mins := Math_floor (time / 60) in
      let secs := (time - inject_Z mins * 60)%Q in
      digits_of mins ++ ":" ++ (if ltb secs 10 then "0" else "") ++ toFixed 2 secs.

(** [xs.map((x, index) => f(x, index))] *)
Fixpoint mapi_from {A B : Type} (index : nat) (f : A -> nat -> B) (xs : list A)
  : list B :=
  match xs with
  | [] => []
  | x :: rest => f x index :: mapi_from (S index) f rest
  end.

Definition mapi {A B : Type} (f : A -> nat -> B) (xs : list A) : list B :=
  mapi_from 0 f xs.

(** The plan of a race that is not the nearest one, [primary] being
    [races[0]]. *)
Definition secondaryPlan (primary race : SprintRaceEvent.t) (goalTime : string)
  : SprintRacePlan.t :=
  let primaryPhase := getPhase (SprintRaceEvent.daysUntil primary) in
  let recovDays := recoveryDays (SprintRaceEvent.distanceM primary) in
  let effectiveDays :=
    Math_max 0 (SprintRaceEvent.daysUntil race
                - SprintRaceEvent.daysUntil primary - recovDays)%Q in
  let postRecoveryPhase := getPhase effectiveDays in
  let isConstrained := leb (SprintRaceEvent.daysUntil primary) 14 in
  let sharedBuildWindow := gtb (SprintRaceEvent.daysUntil primary) 28 in
  let currentPhase :=
    if isConstrained then DEFERRED_PHASE
    else if sharedBuildWindow then
      let base := getPhase (SprintRaceEvent.daysUntil race) in
      {| RacePlanPhase.label := RacePlanPhase.label base;
         RacePlanPhase.timeframe := RacePlanPhase.timeframe base;
         RacePlanPhase.focus := RacePlanPhase.focus base;
         RacePlanPhase.sessions := RacePlanPhase.sessions base;
         RacePlanPhase.strengthNote :=
           RacePlanPhase.strengthNote base ++ " · " ++ COMPLEMENTARY_BUILD_NOTE |}
    else
      let base := getPhase (SprintRaceEvent.daysUntil race) in
      {| RacePlanPhase.label := RacePlanPhase.label base;
         RacePlanPhase.timeframe := RacePlanPhase.timeframe base;
         RacePlanPhase.focus :=
           RacePlanPhase.focus base ++ " — volume capped to support "
             ++ SprintRaceEvent.name primary ++ " prep";
         RacePlanPhase.sessions :=
           map (fun s => s ++ " (reduced volume)") (RacePlanPhase.sessions base);
         RacePlanPhase.strengthNote :=
           RacePlanPhase.strengthNote base
             ++ " · Keep intensity moderate while sharpening for "
             ++ SprintRaceEvent.name primary |} in
  let priorRaceContext :=
    {| PriorRaceContext.priorityRaceName := SprintRaceEvent.name primary;
       PriorRaceContext.priorityRaceDate := SprintRaceEvent.date primary;
       PriorRaceContext.priorityRaceDaysUntil := SprintRaceEvent.daysUntil primary;
       PriorRaceContext.priorityPhaseLabel := RacePlanPhase.label primaryPhase;
       PriorRaceContext.recoveryDaysAfter := recovDays;
       PriorRaceContext.effectiveTrainingDays := effectiveDays;
       PriorRaceContext.postRecoveryPhase := postRecoveryPhase;
       PriorRaceContext.isConstrained := isConstrained |} in
  {| SprintRacePlan.race := race;
     SprintRacePlan.goalTime := goalTime;
     SprintRacePlan.currentPhase := currentPhase;
     SprintRacePlan.priorRaceContext := Some priorRaceContext |}.

Definition buildMultiRacePlans (races : list SprintRaceEvent.t)
    (bestVmax age : number) : list SprintRacePlan.t :=
  match races with
  | [] => []
  | primary :: _ =>
      mapi (fun race index =>
              let goalTime :=
                estimateRaceTime (SprintRaceEvent.distanceM race) bestVmax age in
              if Nat.eqb index 0 then
                {| SprintRacePlan.race := race;
                   SprintRacePlan.goalTime := goalTime;
                   SprintRacePlan.currentPhase :=
                     getPhase (SprintRaceEvent.daysUntil race);
                   SprintRacePlan.priorRaceContext := None |}
              else secondaryPlan primary race goalTime)
           races
  end.

(** [buildMultiRacePlans([race], bestVmax, age)[0]]; indexing an array
    answers [undefined], here [None], past its end. *)
Definition buildPlan (race : SprintRaceEvent.t) (bestVmax age : number)
  : option SprintRacePlan.t :=
  hd_error (buildMultiRacePlans [race] bestVmax age).

End SprintRacePlanner.

(** ** Notions used to state the properties *)



(** A maximal run of moving samples of a stream: a non-empty stretch of
    consecutive samples of at least 1 m/s that has a sample below 1 m/s, or
    the end of the stream, on either side. *)
Definition moving_run (stream burst : list number) : Prop :=
  burst <> []
  /\ Forall (fun v => 1 <= v) burst
  /\ exists before after : list number,
       stream = before ++ burst ++ after
       /\ (before = [] \/ exists b v, before = b ++ [v] /\ v < 1)
       /\ (after = [] \/ exists v a, after = v :: a /\ v < 1).

(** The parser on a stream that is present. *)
Definition parse (stream : list number) : list TrackInterval.t :=
  SprintParser.parseTrackSession {| velocity_smooth := Some stream |}.

(** An estimator input with another age, all else equal. *)
Definition withAge (input : RaceEstimatorInput.t) (age : number)
  : RaceEstimatorInput.t :=
  {| RaceEstimatorInput.bestVmax60d := RaceEstimatorInput.bestVmax60d input;
     RaceEstimatorInput.avgVmax := RaceEstimatorInput.avgVmax input;
     RaceEstimatorInput.nfi := RaceEstimatorInput.nfi input;
     RaceEstimatorInput.nfiStatus := RaceEstimatorInput.nfiStatus input;
     RaceEstimatorInput.tsb := RaceEstimatorInput.tsb input;
     RaceEstimatorInput.age := age;
     RaceEstimatorInput.activityCount := RaceEstimatorInput.activityCount input;
     RaceEstimatorInput.trainingIntervals :=
       RaceEstimatorInput.trainingIntervals input |}.

(** The "no data" result of the estimator for one distance. *)
Definition noData (distance : RaceDistance) : RaceEstimate.t :=
  {| RaceEstimate.distance := distance;
     RaceEstimate.predictedTime := 0;
     RaceEstimate.display := "--";
     RaceEstimate.confidence := low;
     RaceEstimate.phases :=
       {| RacePhaseBreakdown.reaction := 0;
          RacePhaseBreakdown.acceleration := 0;
          RacePhaseBreakdown.maxVelocity := 0;
          RacePhaseBreakdown.deceleration := 0 |} |}.

(* ================================================================== *)
(** * Properties *)
(* ================================================================== *)

(** ** Facts about the arithmetic model *)

Section JSFacts.

Lemma gtb_true_iff (x y : Q) : gtb x y = true <-> y < x.
Proof.
  unfold gtb. rewrite negb_true_iff. split; intro H.
  - apply Qnot_le_lt. intro Hle. apply Qle_bool_iff in Hle. congruence.
  - destruct (Qle_bool x y) eqn:E; [|reflexivity].
    apply Qle_bool_iff in E. exfalso. apply (Qlt_not_le _ _ H E).
Qed.

Lemma gtb_false_iff (x y : Q) : gtb x y = false <-> x <= y.
Proof.
  unfold gtb. rewrite negb_false_iff. apply Qle_bool_iff.
Qed.

Lemma geb_true_iff (x y : Q) : geb x y = true <-> y <= x.
Proof. unfold geb. apply Qle_bool_iff. Qed.

Lemma geb_false_iff (x y : Q) : geb x y = false <-> x < y.
Proof.
  unfold geb. split; intro H.
  - apply Qnot_le_lt. intro Hle. apply Qle_bool_iff in Hle. congruence.
  - destruct (Qle_bool y x) eqn:E; [|reflexivity].
    apply Qle_bool_iff in E. exfalso. apply (Qlt_not_le _ _ H E).
Qed.

Lemma ltb_true_iff (x y : Q) : ltb x y = true <-> x < y.
Proof. apply (gtb_true_iff y x). Qed.

Lemma ltb_false_iff (x y : Q) : ltb x y = false <-> y <= x.
Proof. apply (gtb_false_iff y x). Qed.

Lemma Math_max_cases (a b : Q) :
  (a <= b /\ Math_max a b = b) \/ (b < a /\ Math_max a b = a).
Proof.
  unfold Math_max. destruct (Qle_bool a b) eqn:E.
  - left. split; [apply Qle_bool_iff; exact E | reflexivity].
  - right. split; [|reflexivity].
    apply Qnot_le_lt. intro H. apply Qle_bool_iff in H. congruence.
Qed.

Lemma Math_min_cases (a b : Q) :
  (a <= b /\ Math_min a b = a) \/ (b < a /\ Math_min a b = b).
Proof.
  unfold Math_min. destruct (Qle_bool a b) eqn:E.
  - left. split; [apply Qle_bool_iff; exact E | reflexivity].
  - right. split; [|reflexivity].
    apply Qnot_le_lt. intro H. apply Qle_bool_iff in H. congruence.
Qed.

Lemma Math_max_spec (a b : Q) :
  a <= Math_max a b /\ b <= Math_max a b /\
  (Math_max a b == a \/ Math_max a b == b).
Proof.
  destruct (Math_max_cases a b) as [[H E]|[H E]]; rewrite E.
  - split; [exact H | split; [lra | right; reflexivity]].
  - split; [lra | split; [lra | left; reflexivity]].
Qed.

Lemma Math_min_spec (a b : Q) :
  Math_min a b <= a /\ Math_min a b <= b /\
  (Math_min a b == a \/ Math_min a b == b).
Proof.
  destruct (Math_min_cases a b) as [[H E]|[H E]]; rewrite E.
  - split; [lra | split; [exact H | left; reflexivity]].
  - split; [lra | split; [lra | right; reflexivity]].
Qed.

(** The clamp [Math.min(hi, Math.max(lo, x))] stays inside [lo, hi]. *)
Lemma clamp_range (lo hi x : Q) :
  lo <= hi -> lo <= Math_min hi (Math_max lo x) <= hi.
Proof.
  intro Hlh.
  pose proof (Math_max_spec lo x) as (Ha & Hb & Hc).
  pose proof (Math_min_spec hi (Math_max lo x)) as (Hd & He & Hf).
  split; [destruct Hf as [Hf|Hf]; rewrite Hf; lra | lra].
Qed.

Lemma Math_round_mono (x y : Q) : x <= y -> (Math_round x <= Math_round y)%Z.
Proof.
  intro H. unfold Math_round. apply Qfloor_resp_le. lra.
Qed.

Lemma Math_round_Z (n : Z) : Math_round (inject_Z n) = n.
Proof.
  unfold Math_round.
  assert (Hlo : (n <= Qfloor (inject_Z n + (1 # 2)))%Z).
  { rewrite <- (Qfloor_Z n) at 1. apply Qfloor_resp_le. lra. }
  assert (Hhi : (Qfloor (inject_Z n + (1 # 2)) < n + 1)%Z).
  { rewrite Zlt_Qlt.
    apply Qle_lt_trans with (inject_Z n + (1 # 2)); [apply Qfloor_le|].
    rewrite inject_Z_plus. change (inject_Z 1) with 1. lra. }
  lia.
Qed.

Lemma Math_round_comp (x y : Q) : x == y -> Math_round x = Math_round y.
Proof.
  intro H. unfold Math_round. apply Qfloor_comp. rewrite H. reflexivity.
Qed.

Lemma pow10_pos (d : nat) : 0 < inject_Z (pow10 d).
Proof.
  unfold pow10. change 0 with (inject_Z 0). rewrite <- Zlt_Qlt.
  apply Z.pow_pos_nonneg; lia.
Qed.

(** [toFixed] lands on the decimal grid ... *)
Lemma toFixed_number_grid (d : nat) (x : Q) :
  exists n : Z, toFixed_number d x == inject_Z n / inject_Z (pow10 d).
Proof.
  unfold toFixed_number. eexists. reflexivity.
Qed.

(** ... at the grid point nearest to its argument. *)
Lemma toFixed_number_near (d : nat) (x : Q) :
  Qabs (toFixed_number d x - x) * inject_Z (pow10 d) <= 1 # 2.
Proof.
  pose proof (pow10_pos d) as HP.
  unfold toFixed_number, toFixed_scaled.
  set (P := inject_Z (pow10 d)) in *.
  pose proof (Qfloor_le (Qabs x * P + (1 # 2))) as Hlo.
  pose proof (Qlt_floor (Qabs x * P + (1 # 2))) as Hhi.
  rewrite inject_Z_plus in Hhi. change (inject_Z 1) with 1 in Hhi.
  set (n := Qfloor (Qabs x * P + (1 # 2))) in *.
  assert (HP' : ~ P == 0) by lra.
  destruct (ltb x 0) eqn:Hs.
  - apply ltb_true_iff in Hs.
    assert (Hx : Qabs x == - x) by (apply Qabs_neg; lra).
    rewrite Hx in Hlo, Hhi.
    rewrite inject_Z_opp.
    assert (E : (- inject_Z n / P - x) * P == - inject_Z n - x * P)
      by (field; exact HP').
    apply Qabs_case; intro Hc; lra.
  - apply ltb_false_iff in Hs.
    assert (Hx : Qabs x == x) by (apply Qabs_pos; exact Hs).
    rewrite Hx in Hlo, Hhi.
    assert (E : (inject_Z n / P - x) * P == inject_Z n - x * P)
      by (field; exact HP').
    apply Qabs_case; intro Hc; lra.
Qed.

Lemma toFixed_number_comp (d : nat) (x y : Q) :
  x == y -> toFixed_number d x == toFixed_number d y.
Proof.
  intro H. unfold toFixed_number, toFixed_scaled, ltb.
  rewrite (Qleb_comp 0 0 (Qeq_refl 0) x y H).
  rewrite (Qfloor_comp (Qabs x * inject_Z (pow10 d) + (1 # 2))
             (Qabs y * inject_Z (pow10 d) + (1 # 2))).
  - reflexivity.
  - rewrite H. reflexivity.
Qed.

End JSFacts.

(** ** SilverSprintLogic *)

Section CoreProperties.

Import SilverSprintLogic.

Lemma hrvScore_range (hrv : HRVData) : 0 <= hrvScore hrv <= 100.
Proof. unfold hrvScore. apply clamp_range. lra. Qed.

Lemma tsbScore_range (tsb : Q) : 0 <= tsbScore tsb <= 100.
Proof. unfold tsbScore. apply clamp_range. lra. Qed.

Lemma nfiScore_range (nfi : Q) : 0 <= nfiScore nfi <= 100.
Proof. unfold nfiScore. apply clamp_range. lra. Qed.

Lemma weighted_sum_range (h t n : Q) :
  0 <= h <= 100 -> 0 <= t <= 100 -> 0 <= n <= 100 ->
  0 <= h * 0.45 + t * 0.30 + n * 0.25 <= 100.
Proof. intros; lra. Qed.

(** C1.  For every HRV pair, training stress balance and fatigue index the
    composite recovery score is an integer between 0 and 100; with an HRV
    ratio of 1.0 (currentHRV = avgHRV7d > 0), a balance of +20 and a
    fatigue index of 1.0 it is exactly 93. *)
Theorem calculateSRS_range_and_ceiling :
  (forall (hrv : HRVData) (tsb nfi : Q),
      (0 <= calculateSRS hrv tsb nfi <= 100)%Z) /\
  (forall hrv : HRVData,
      0 < avgHRV7d hrv -> currentHRV hrv == avgHRV7d hrv ->
      calculateSRS hrv 20 1.0 = 93%Z).
Proof.
  split.
  - intros hrv tsb nfi. unfold calculateSRS.
    pose proof (weighted_sum_range _ _ _ (hrvScore_range hrv)
                  (tsbScore_range tsb) (nfiScore_range nfi)) as [Hlo Hhi].
    split.
    + rewrite <- (Math_round_Z 0). apply Math_round_mono. exact Hlo.
    + rewrite <- (Math_round_Z 100). apply Math_round_mono. exact Hhi.
  - intros hrv Hpos Heq. unfold calculateSRS.
    assert (Hh : hrvScore hrv == 250 # 3).
    { unfold hrvScore.
      apply gtb_true_iff in Hpos. rewrite Hpos.
      assert (Hr : currentHRV hrv / avgHRV7d hrv == 1).
      { rewrite Heq. field. apply gtb_true_iff in Hpos. lra. }
      set (e := (currentHRV hrv / avgHRV7d hrv - 0.75) / 0.30 * 100).
      assert (He : e == 250 # 3) by (unfold e; rewrite Hr; reflexivity).
      pose proof (Math_max_spec 0 e) as (Ha & Hb & Hc).
      pose proof (Math_min_spec 100 (Math_max 0 e)) as (Hd & Hf & Hg).
      destruct Hc as [Hc|Hc], Hg as [Hg|Hg]; lra. }
    assert (Ht : tsbScore 20 == 100) by reflexivity.
    assert (Hn : nfiScore 1.0 == 100) by reflexivity.
    rewrite (Math_round_comp _ (185 # 2)).
    + reflexivity.
    + rewrite Hh, Ht, Hn. reflexivity.
Qed.

Lemma calculateSRS_range_and_ceiling_witness :
  calculateSRS {| currentHRV := 60; avgHRV7d := 60 |} 20 1.0 = 93%Z.
Proof.
  apply (proj2 calculateSRS_range_and_ceiling
           {| currentHRV := 60; avgHRV7d := 60 |}); simpl.
  - reflexivity.
  - reflexivity.
Defined.

(** The same input on binary64: the three rounded products add up to
    exactly 92.5 again, the tie that [Math.round] takes to 93. *)
Lemma weightedSum_ceiling_binary64 :
  Binary64.ceilingSum = Binary64.ninetyTwoAndAHalf.
Proof. vm_compute. reflexivity. Qed.

(** C3.  The status band is green exactly above 0.97, amber exactly on the
    closed interval from 0.94 to 0.97, red exactly below 0.94; the two
    boundary values 0.94 and 0.97 are amber. *)
Theorem getNFIStatus_bands :
  (forall nfi : Q,
      (getNFIStatus nfi = green <-> 0.97 < nfi) /\
      (getNFIStatus nfi = amber <-> 0.94 <= nfi /\ nfi <= 0.97) /\
      (getNFIStatus nfi = red <-> nfi < 0.94)) /\
  getNFIStatus 0.97 = amber /\ getNFIStatus 0.94 = amber.
Proof.
  split; [|split; reflexivity].
  intro nfi. unfold getNFIStatus.
  destruct (gtb nfi 0.97) eqn:E1.
  - apply gtb_true_iff in E1.
    repeat split; intros; try discriminate; try lra.
  - apply gtb_false_iff in E1.
    destruct (geb nfi 0.94) eqn:E2.
    + apply geb_true_iff in E2.
      repeat split; intros; try discriminate; try lra.
    + apply geb_false_iff in E2.
      repeat split; intros; try discriminate; try lra.
Qed.

(** C4.  Without a positive baseline the fatigue index is exactly 1.0,
    whatever the current peak; with a positive baseline it is the ratio
    currentPeak / baselinePeak rounded to three decimals: a whole number of
    thousandths, no further than half a thousandth from the ratio. *)
Theorem calculateNFI_spec (currentVmax avgVmax : Q) :
  (avgVmax <= 0 -> calculateNFI currentVmax avgVmax = 1.0) /\
  (0 < avgVmax ->
     (exists n : Z, calculateNFI currentVmax avgVmax == inject_Z n / 1000) /\
     Qabs (calculateNFI currentVmax avgVmax - currentVmax / avgVmax)
       <= 1 # 2000).
Proof.
  unfold calculateNFI. split; intro H.
  - apply gtb_false_iff in H. rewrite H. reflexivity.
  - apply gtb_true_iff in H. rewrite H. split.
    + apply (toFixed_number_grid 3).
    + pose proof (toFixed_number_near 3 (currentVmax / avgVmax)) as Hn.
      change (inject_Z (pow10 3)) with 1000 in Hn. lra.
Qed.

Lemma calculateNFI_spec_witness :
  calculateNFI 0 0 = 1.0 /\
  Qabs (calculateNFI 8.5 9.5 - 8.5 / 9.5) <= 1 # 2000.
Proof.
  split.
  - apply (proj1 (calculateNFI_spec 0 0)). discriminate.
  - apply (proj2 (calculateNFI_spec 8.5 9.5)). reflexivity.
Defined.

(** C10.  The freshness-adjusted score is never below the plain score on
    the same inputs: replacing the fatigue index by the neutral 1.0 can
    only raise the composite. *)
Theorem calculateFreshnessAdjustedSRS_ge (hrv : HRVData) (tsb nfi : Q) :
  (calculateSRS hrv tsb nfi <= calculateFreshnessAdjustedSRS hrv tsb nfi)%Z.
Proof.
  unfold calculateFreshnessAdjustedSRS.
  destruct ((NFIStatus_eqb (getNFIStatus nfi) red
             || NFIStatus_eqb (getNFIStatus nfi) amber) && geb tsb 0).
  - unfold calculateSRS. apply Math_round_mono.
    assert (Hn : nfiScore 1.0 == 100) by reflexivity.
    pose proof (nfiScore_range nfi) as [_ Hhi].
    rewrite Hn. lra.
  - apply Z.le_refl.
Qed.

End CoreProperties.

(** ** Stale-Vmax detection and workout selection *)

Section WorkoutProperties.

Import SprintWorkoutGenerator.

Lemma stale_band_iff (band : NFIStatus) :
  NFIStatus_eqb band red || NFIStatus_eqb band amber = true
  <-> band = amber \/ band = red.
Proof.
  destruct band; simpl; split; intro H;
    try discriminate; try reflexivity; auto;
    destruct H; discriminate.
Qed.

Lemma isStaleVmax_true_iff (band : NFIStatus) (context : option SprintContext) :
  isStaleVmax band context = true
  <-> (band = amber \/ band = red)
      /\ exists c, context = Some c /\ 0 <= tsb c.
Proof.
  destruct context as [c|]; simpl.
  - rewrite andb_true_iff, stale_band_iff, geb_true_iff. split.
    + intros [Hb Ht]. split; [exact Hb|]. exists c. split; [reflexivity|exact Ht].
    + intros [Hb (c' & Hc & Ht)]. injection Hc as <-. split; assumption.
  - split; [discriminate|]. intros [_ (c' & Hc & _)]. discriminate.
Qed.

(** C2.  The stale-signal predicate answers true exactly when the band is
    amber or red and a context is supplied whose training stress balance
    is at least 0; without a context it answers false for every band. *)
Theorem isStaleVmax_iff :
  (forall (band : NFIStatus) (context : option SprintContext),
      isStaleVmax band context = true
      <-> (band = amber \/ band = red)
          /\ exists c, context = Some c /\ 0 <= tsb c) /\
  (forall band : NFIStatus, isStaleVmax band None = false).
Proof.
  split.
  - exact isStaleVmax_true_iff.
  - intro band. reflexivity.
Qed.

(** The inline test of [calculateFreshnessAdjustedSRS] is the same predicate
    on the band of the fatigue index. *)
Lemma freshness_test_is_isStaleVmax (hrv : HRVData) (t nfi : Q) :
  SilverSprintLogic.calculateFreshnessAdjustedSRS hrv t nfi
  = SilverSprintLogic.calculateSRS hrv t
      (if isStaleVmax (SilverSprintLogic.getNFIStatus nfi) (Some {| tsb := t |})
       then 1.0 else nfi).
Proof. reflexivity. Qed.

Lemma reactivation_is_not_a_status_workout (band : NFIStatus) (nfi t : Q) :
  reactivationWorkout nfi t <> statusWorkout band nfi.
Proof.
  intro H. apply (f_equal SprintWorkout.name) in H.
  destruct band; discriminate H.
Qed.

(** C5.  Whatever the fatigue index, a supplied context with an amber or
    red band and a balance of at least 0 selects the neural re-activation
    workout, which is none of the plain status workouts; with no context,
    a green band or a negative balance the generator returns the green,
    amber or red workout of the band.  So ('red', 0.90, {tsb: 5}) is the
    re-activation session and ('red', 0.90, {tsb: -15}) the recovery one. *)
Theorem generate_selection :
  (forall (band : NFIStatus) (nfi : Q) (c : SprintContext),
      (band = amber \/ band = red) -> 0 <= tsb c ->
      generate band nfi (Some c) = reactivationWorkout nfi (tsb c)
      /\ generate band nfi (Some c) <> statusWorkout band nfi) /\
  (forall (band : NFIStatus) (nfi : Q) (context : option SprintContext),
      (context = None \/ band = green
       \/ exists c, context = Some c /\ tsb c < 0) ->
      generate band nfi context
      = match band with
        | green => greenWorkout nfi
        | amber => amberWorkout nfi
        | red => redWorkout nfi
        end
      /\ SprintWorkout.status (generate band nfi context) = band) /\
  SprintWorkout.name (generate red 0.90 (Some {| tsb := 5 |}))
    = "Neural Re-Activation — Restore Sprint Speed"%string /\
  generate red 0.90 (Some {| tsb := -15 |}) = redWorkout 0.90.
Proof.
  split; [|split; [|split; reflexivity]].
  - intros band nfi c Hb Ht.
    assert (Hs : isStaleVmax band (Some c) = true).
    { apply isStaleVmax_true_iff. split; [exact Hb|].
      exists c. split; [reflexivity|exact Ht]. }
    unfold generate. rewrite Hs. split; [reflexivity|].
    apply reactivation_is_not_a_status_workout.
  - intros band nfi context H.
    assert (Hs : isStaleVmax band context = false).
    { destruct (isStaleVmax band context) eqn:E; [|reflexivity].
      apply isStaleVmax_true_iff in E.
      destruct E as [Hb (c & Hc & Ht)].
      destruct H as [H|[H|(c' & Hc' & Ht')]].
      - congruence.
      - subst band. destruct Hb; discriminate.
      - rewrite Hc in Hc'. injection Hc' as <-. lra. }
    unfold generate. rewrite Hs. unfold statusWorkout.
    split; [reflexivity|]. destruct band; reflexivity.
Qed.

Lemma generate_selection_witness :
  generate red 0.92 (Some {| tsb := 5 |}) = reactivationWorkout 0.92 5
  /\ SprintWorkout.status (generate amber 0.95 None) = amber.
Proof.
  split.
  - apply (proj1 generate_selection red 0.92 {| tsb := 5 |}).
    + right. reflexivity.
    + simpl. discriminate.
  - apply (proj1 (proj2 generate_selection) amber 0.95 None).
    left. reflexivity.
Defined.

End WorkoutProperties.

(** ** SprintParser *)

Section ParserProperties.

Import SprintParser.





Lemma Math_round_le_const (x : Q) (k : Z) :
  x <= inject_Z k -> (Math_round x <= k)%Z.
Proof.
  intro H. rewrite <- (Math_round_Z k). apply Math_round_mono. exact H.
Qed.

Lemma Math_round_ge_const (x : Q) (k : Z) :
  inject_Z k <= x -> (k <= Math_round x)%Z.
Proof.
  intro H. rewrite <- (Math_round_Z k) at 1. apply Math_round_mono. exact H.
Qed.





(** The running maximum of the loop, started at 0 and updated on [>], against
    the maximum of the same values. *)
Lemma best_so_far_is_max (f : nat -> Q) (l : list nat) (b b' : Q) :
  b == b' ->
  fold_left (fun best i => if gtb (f i) best then f i else best) l b
  == fold_left Math_max (map f l) b'.
Proof.
  revert b b'. induction l as [|i l IH]; intros b b' Hb; simpl.
  - exact Hb.
  - apply IH.
    pose proof (Math_max_spec b' (f i)) as (Ha & Hc & Hd).
    destruct (gtb (f i) b) eqn:E.
    + apply gtb_true_iff in E. destruct Hd as [Hd|Hd]; lra.
    + apply gtb_false_iff in E. destruct Hd as [Hd|Hd]; lra.
Qed.

(** A burst of up to three samples leaves through the early return with the
    mean of the whole burst, which is its single window mean, not rounded. *)
Lemma computeFlyingVelocity_short_burst (burst : list Q) :
  burst <> [] -> (List.length burst <= 3)%nat ->
  computeFlyingVelocity burst = Math_max_spread (windowMeans burst).
Proof.
  intros Hne Hlen.
  destruct burst as [|a [|b [|c [|d rest]]]]; simpl in Hlen;
    try contradiction; try lia; reflexivity.
Qed.

(** A longer burst of moving samples gets the documented value: the best
    mean over the windows of three samples, rounded to two decimals. *)
Lemma computeFlyingVelocity_long_burst (burst : list Q) :
  (3 < List.length burst)%nat -> Forall (fun v => 1 <= v) burst ->
  computeFlyingVelocity burst == documentedFlyingVelocity burst.
Proof.
  intros Hlen Hall.
  unfold computeFlyingVelocity, documentedFlyingVelocity, windowMeans, number.
  assert (E0 : Nat.eqb (List.length burst) 0 = false) by (apply Nat.eqb_neq; lia).
  assert (E3 : Nat.leb (List.length burst) 3 = false) by (apply Nat.leb_gt; lia).
  rewrite E0, E3.
  replace (Nat.min 3 (List.length burst)) with 3%nat by lia.
  replace (List.length burst - 3 + 1)%nat with (S (List.length burst - 3)) by lia.
  apply toFixed_number_comp.
  pose (f := fun i : nat => sum (slice burst i (i + 3)) / inject_Z (Z.of_nat 3)).
  set (n := (List.length burst - 3)%nat).
  change (fold_left (fun best i => if gtb (f i) best then f i else best)
            (seq 0 (S n)) 0
          == Math_max_spread (map f (seq 0 (S n)))).
  cbn [seq map Math_max_spread fold_left].
  assert (Hf0 : gtb (f 0%nat) 0 = true).
  { apply gtb_true_iff. unfold f.
    destruct burst as [|a [|b [|c rest]]]; simpl in Hlen; try lia.
    inversion Hall as [|? ? Ha Hall1]; subst.
    inversion Hall1 as [|? ? Hb Hall2]; subst.
    inversion Hall2 as [|? ? Hc _]; subst.
    unfold slice, sum. simpl.
    apply Qlt_shift_div_l; [reflexivity|]. lra. }
  rewrite Hf0.
  apply best_so_far_is_max. reflexivity.
Qed.

(** C6 at a two-sample burst.  The samples 5.125 and 5 make one interval
    (10.125 m); the best window mean is 5.0625, which rounded to two
    decimals is 5.06, but the interval carries 5.0625: bursts of up to
    three samples leave through the early return, which does not round. *)
Theorem computeFlyingVelocity_short_burst_not_rounded :
  exists iv : TrackInterval.t,
    parseTrackSession {| velocity_smooth := Some [5.125; 5] |} = [iv]
    /\ TrackInterval.flyingVelocity iv == 5.0625
    /\ documentedFlyingVelocity [5.125; 5] == 5.06
    /\ ~ TrackInterval.flyingVelocity iv == documentedFlyingVelocity [5.125; 5].
Proof.
  eexists. split; [reflexivity|].
  split; [reflexivity|]. split; [reflexivity|].
  vm_compute. discriminate.
Qed.

End ParserProperties.

(** ** RaceEstimator *)

Section EstimatorProperties.

Import RaceEstimator.

(** *** Rounding to two decimals on non-negative numbers *)

Lemma toFixed_number_nonneg (d : nat) (x : Q) :
  0 <= x ->
  toFixed_number d x
  == inject_Z (Qfloor (x * inject_Z (pow10 d) + (1 # 2))) / inject_Z (pow10 d).
Proof.
  intro Hx. unfold toFixed_number, toFixed_scaled.
  assert (Hs : ltb x 0 = false) by (apply ltb_false_iff; exact Hx).
  rewrite Hs.
  rewrite (Qfloor_comp (Qabs x * inject_Z (pow10 d) + (1 # 2))
             (x * inject_Z (pow10 d) + (1 # 2))).
  - reflexivity.
  - rewrite (Qabs_pos x Hx). reflexivity.
Qed.

Lemma toFixed_number_mono (d : nat) (x y : Q) :
  0 <= x -> x <= y -> toFixed_number d x <= toFixed_number d y.
Proof.
  intros Hx Hxy. pose proof (pow10_pos d) as HP.
  rewrite (toFixed_number_nonneg d x Hx).
  rewrite (toFixed_number_nonneg d y) by lra.
  set (P := inject_Z (pow10 d)) in *.
  apply Qmult_le_compat_r.
  - rewrite <- Zle_Qle. apply Qfloor_resp_le. nra.
  - apply Qlt_le_weak. apply Qinv_lt_0_compat. exact HP.
Qed.


Lemma toFixed_number_pos (x : Q) : 0.005 < x -> 0 < toFixed_number 2 x.
Proof.
  intro Hx. pose proof (toFixed_number_near 2 x) as Hn.
  change (inject_Z (pow10 2)) with 100 in Hn.
  revert Hn. apply Qabs_case; intros Hc Hn; lra.
Qed.

(** *** The factors of the average speed *)

Lemma getReadinessModifier_range (nfi tsb : Q) :
  0.95 <= getReadinessModifier nfi tsb <= 1.03.
Proof.
  unfold getReadinessModifier.
  match goal with
  | |- _ <= Math_max _ (Math_min _ ?m) <= _ =>
      pose proof (Math_min_spec 1.03 m) as (Ha & Hb & Hc);
      pose proof (Math_max_spec 0.95 (Math_min 1.03 m)) as (Hd & He & Hf)
  end.
  destruct Hf as [Hf|Hf]; rewrite Hf; lra.
Qed.

Lemma agePenalty_range (age : Q) :
  0.65 <= Math_max (if gtb age 35 then 1 - (age - 35) * AGE_DEGRADATION_PER_YEAR else 1) 0.65 <= 1.
Proof.
  unfold AGE_DEGRADATION_PER_YEAR.
  destruct (gtb age 35) eqn:E.
  - apply gtb_true_iff in E.
    pose proof (Math_max_spec (1 - (age - 35) * 0.007) 0.65) as (Ha & Hb & [Hc|Hc]);
      rewrite Hc; lra.
  - pose proof (Math_max_spec 1 0.65) as (Ha & Hb & [Hc|Hc]); rewrite Hc; lra.
Qed.

Lemma getDynamicSustainFractions_range (profile : option TrainingProfile.t) :
  let f := getDynamicSustainFractions profile in
  0.91 <= at100 f <= 0.95 /\ 0.82 <= at200 f <= 0.93 /\ 0.70 <= at400 f <= 0.85.
Proof.
  unfold getDynamicSustainFractions.
  destruct profile as [p|]; [|simpl; lra].
  set (dev := TrainingProfile.speedEnduranceIndex p - 0.85).
  pose proof (Math_min_spec 0.93 (at200 BASE_SPEED_SUSTAIN + dev * 0.5)) as (A1 & A2 & A3).
  pose proof (Math_max_spec 0.82 (Math_min 0.93 (at200 BASE_SPEED_SUSTAIN + dev * 0.5)))
    as (B1 & B2 & B3).
  pose proof (Math_min_spec 0.85 (at400 BASE_SPEED_SUSTAIN + dev * 0.7)) as (C1 & C2 & C3).
  pose proof (Math_max_spec 0.70 (Math_min 0.85 (at400 BASE_SPEED_SUSTAIN + dev * 0.7)))
    as (D1 & D2 & D3).
  assert (HB : 0.82 <= Math_max 0.82 (Math_min 0.93 (at200 BASE_SPEED_SUSTAIN + dev * 0.5)) <= 0.93)
    by (destruct B3 as [B3|B3]; rewrite B3; lra).
  assert (HD : 0.70 <= Math_max 0.70 (Math_min 0.85 (at400 BASE_SPEED_SUSTAIN + dev * 0.7)) <= 0.85)
    by (destruct D3 as [D3|D3]; rewrite D3; lra).
  destruct (Nat.leb 2 (TrainingProfile.seIntervalCount p)
            && gtb (TrainingProfile.speedEnduranceIndex p) 0);
    destruct (Nat.leb 3 (TrainingProfile.accelIntervalCount p)
              && gtb (TrainingProfile.avgAccelerationTime p) 0);
    try (destruct (ltb (TrainingProfile.avgAccelerationTime p) 4.5) eqn:E45;
         [apply ltb_true_iff in E45|]);
    cbn [at100 at200 at400 BASE_SPEED_SUSTAIN];
    try match goal with
        | |- context [Math_min 0.95 ?b] =>
            pose proof (Math_min_spec 0.95 b) as (E1 & E2 & [E3|E3]); rewrite E3
        end;
    repeat split; try lra; try apply HB; try apply HD.
Qed.

Lemma effectiveVmaxOf_range (input : RaceEstimatorInput.t) :
  0 < peakVmaxOf input ->
  0 < effectiveVmaxOf input <= peakVmaxOf input * 1.02.
Proof.
  intro Hp. unfold effectiveVmaxOf.
  destruct (profileOf input) as [p|]; [|lra].
  destruct (gtb (TrainingProfile.bestFlyingVelocity p) 0) eqn:E; [|lra].
  apply gtb_true_iff in E.
  match goal with
  | |- _ < Math_min ?a ?b <= _ =>
      pose proof (Math_min_spec a b) as (Ha & Hb & [Hc|Hc]); rewrite Hc; lra
  end.
Qed.

(** The average speed is the sustain fraction of the distance times a
    factor common to the three distances: effective peak velocity, age
    penalty and readiness modifier. *)
Lemma avgSpeedOf_factor (input : RaceEstimatorInput.t) :
  0 < peakVmaxOf input ->
  exists K : Q,
    0 < K /\ K <= peakVmaxOf input * 1.0506
    /\ forall d : RaceDistance,
        avgSpeedOf d input
        == K * fractionAt (getDynamicSustainFractions (profileOf input)) d.
Proof.
  intro Hp.
  pose proof (effectiveVmaxOf_range input Hp) as [He1 He2].
  pose proof (agePenalty_range (RaceEstimatorInput.age input)) as [Ha1 Ha2].
  pose proof (getReadinessModifier_range (RaceEstimatorInput.nfi input)
                (RaceEstimatorInput.tsb input)) as [Hm1 Hm2].
  unfold avgSpeedOf.
  set (e := effectiveVmaxOf input) in *.
  set (a := Math_max _ 0.65) in *.
  set (m := getReadinessModifier _ _) in *.
  exists (e * a * m).
  assert (Hea : 0 < e * a) by nra.
  assert (Hea' : e * a <= peakVmaxOf input * 1.02) by nra.
  split; [nra|]. split; [nra|].
  intro d. ring.
Qed.

(** The unrounded times, one hundredth apart when the peak velocity is at
    most 10000 m/s. *)
Lemma rawTimeOf_ordered (input : RaceEstimatorInput.t) :
  0 < peakVmaxOf input ->
  0.15 < rawTimeOf D100 input
  /\ rawTimeOf D100 input < rawTimeOf D200 input
  /\ rawTimeOf D200 input < rawTimeOf D400 input
  /\ (peakVmaxOf input <= 10000 ->
      rawTimeOf D100 input + 0.01 <= rawTimeOf D200 input
      /\ rawTimeOf D200 input + 0.01 <= rawTimeOf D400 input).
Proof.
  intro Hp.
  destruct (avgSpeedOf_factor input Hp) as (K & HK0 & HK1 & Hs).
  pose proof (getDynamicSustainFractions_range (profileOf input)) as (F1 & F2 & F4).
  cbv zeta in F1, F2, F4.
  pose proof (Hs D100) as S1. pose proof (Hs D200) as S2. pose proof (Hs D400) as S4.
  simpl fractionAt in S1, S2, S4.
  set (f := getDynamicSustainFractions (profileOf input)) in *.
  unfold rawTimeOf, REACTION_TIME. simpl raceMetres.
  set (s1 := avgSpeedOf D100 input) in *.
  set (s2 := avgSpeedOf D200 input) in *.
  set (s4 := avgSpeedOf D400 input) in *.
  assert (P1 : 0 < s1) by nra.
  assert (P2 : 0 < s2) by nra.
  assert (P4 : 0 < s4) by nra.
  set (u := / K).
  assert (Hu : 0 < u) by (apply Qinv_lt_0_compat; exact HK0).
  assert (HuK : u * K == 1) by (unfold u; field; lra).
  assert (U1lo : 0.91 <= u * s1) by nra.
  assert (U1hi : u * s1 <= 0.95) by nra.
  assert (U2lo : 0.82 <= u * s2) by nra.
  assert (U2hi : u * s2 <= 0.93) by nra.
  assert (U4lo : 0.70 <= u * s4) by nra.
  assert (U4hi : u * s4 <= 0.85) by nra.
  (* the three running times against multiples of u *)
  assert (T1hi : 100 / s1 <= (10000 # 91) * u).
  { apply Qle_shift_div_r; [exact P1|]. nra. }
  assert (T1lo : 0 < 100 / s1).
  { apply Qlt_shift_div_l; [exact P1|]. lra. }
  assert (T2lo : (20000 # 93) * u <= 200 / s2).
  { apply Qle_shift_div_l; [exact P2|]. nra. }
  assert (T2hi : 200 / s2 <= (20000 # 82) * u).
  { apply Qle_shift_div_r; [exact P2|]. nra. }
  assert (T4lo : (40000 # 85) * u <= 400 / s4).
  { apply Qle_shift_div_l; [exact P4|]. nra. }
  split; [lra|]. split; [lra|]. split; [lra|].
  intro Hcap.
  assert (Hu' : 1 <= u * 10506) by nra.
  split; lra.
Qed.

Lemma peakVmaxOf_pos_iff (input : RaceEstimatorInput.t) :
  0 < peakVmaxOf input
  <-> 0 < RaceEstimatorInput.bestVmax60d input \/ 0 < RaceEstimatorInput.avgVmax input.
Proof.
  unfold peakVmaxOf.
  pose proof (Math_max_spec (RaceEstimatorInput.bestVmax60d input)
                (RaceEstimatorInput.avgVmax input)) as (Ha & Hb & Hc).
  split.
  - intro H. destruct Hc as [Hc|Hc]; [left | right]; lra.
  - intros [H|H]; lra.
Qed.

Lemma peakVmaxOf_le (input : RaceEstimatorInput.t) (bound : Q) :
  RaceEstimatorInput.bestVmax60d input <= bound ->
  RaceEstimatorInput.avgVmax input <= bound ->
  peakVmaxOf input <= bound.
Proof.
  intros H1 H2. unfold peakVmaxOf.
  pose proof (Math_max_spec (RaceEstimatorInput.bestVmax60d input)
                (RaceEstimatorInput.avgVmax input)) as (_ & _ & [Hc|Hc]);
    rewrite Hc; assumption.
Qed.

Lemma estimateDistance_with_data (d : RaceDistance) (input : RaceEstimatorInput.t) :
  0 < peakVmaxOf input ->
  RaceEstimate.predictedTime (estimateDistance d input)
  = toFixed_number 2 (rawTimeOf d input).
Proof.
  intro Hp. unfold estimateDistance.
  assert (E : leb (peakVmaxOf input) 0 = false).
  { unfold leb. destruct (Qle_bool (peakVmaxOf input) 0) eqn:El; [|reflexivity].
    apply Qle_bool_iff in El. lra. }
  rewrite E. reflexivity.
Qed.

Lemma estimateDistance_without_data (d : RaceDistance) (input : RaceEstimatorInput.t) :
  peakVmaxOf input <= 0 -> estimateDistance d input = noData d.
Proof.
  intro Hp. unfold estimateDistance.
  assert (E : leb (peakVmaxOf input) 0 = true) by (apply Qle_bool_iff; exact Hp).
  rewrite E. reflexivity.
Qed.

(** C8, as the code has it.  The "no data" result (display "--", predicted
    time 0, the four phase times 0) is returned for all three distances
    when neither peak velocity is positive: bestVmax60d <= 0 and
    avgVmax <= 0.  As soon as one of the two is positive the estimate is
    computed from the larger and every predicted time is positive. *)
Theorem estimate_no_data_iff_no_peak :
  (forall input : RaceEstimatorInput.t,
      RaceEstimatorInput.bestVmax60d input <= 0 ->
      RaceEstimatorInput.avgVmax input <= 0 ->
      estimate input = [noData D100; noData D200; noData D400]) /\
  (forall input : RaceEstimatorInput.t,
      0 < RaceEstimatorInput.bestVmax60d input
      \/ 0 < RaceEstimatorInput.avgVmax input ->
      Forall (fun e => 0 < RaceEstimate.predictedTime e) (estimate input)).
Proof.
  split.
  - intros input Hb Ha.
    assert (Hp : peakVmaxOf input <= 0) by (apply peakVmaxOf_le; assumption).
    unfold estimate. simpl.
    rewrite !estimateDistance_without_data by exact Hp. reflexivity.
  - intros input H. apply peakVmaxOf_pos_iff in H.
    destruct (rawTimeOf_ordered input H) as (R1 & R2 & R3 & _).
    unfold estimate. simpl.
    repeat constructor;
      rewrite (estimateDistance_with_data _ input H);
      apply toFixed_number_pos; lra.
Qed.

Lemma estimate_no_data_iff_no_peak_witness :
  estimate (RaceEstimatorInput.mk 0 0 1.0 green 5 45 15 None)
  = [noData D100; noData D200; noData D400]
  /\ Forall (fun e => 0 < RaceEstimate.predictedTime e)
       (estimate (RaceEstimatorInput.mk 0 9.8 1.0 green 5 45 15 None)).
Proof.
  split.
  - apply (proj1 estimate_no_data_iff_no_peak); simpl; lra.
  - apply (proj2 estimate_no_data_iff_no_peak). right. simpl. lra.
Defined.

(** C8 as stated fails: with bestVmax60d = 0 and a rolling average of
    9.8 m/s the 100 m estimate is displayed as 12.21, not as "--". *)
Lemma estimate_zero_best_with_average_is_not_no_data :
  ~ (forall input : RaceEstimatorInput.t,
        RaceEstimatorInput.bestVmax60d input == 0 ->
        Forall (fun e =>
                  RaceEstimate.display e = "--"%string
                  /\ RaceEstimate.predictedTime e == 0
                  /\ RacePhaseBreakdown.reaction (RaceEstimate.phases e) == 0
                  /\ RacePhaseBreakdown.acceleration (RaceEstimate.phases e) == 0
                  /\ RacePhaseBreakdown.maxVelocity (RaceEstimate.phases e) == 0
                  /\ RacePhaseBreakdown.deceleration (RaceEstimate.phases e) == 0)
               (estimate input)).
Proof.
  intro H.
  specialize (H (RaceEstimatorInput.mk 0 9.8 1.0 green 5 45 15 None) (Qeq_refl 0)).
  apply Forall_inv in H. destruct H as [Hd _].
  vm_compute in Hd. discriminate Hd.
Qed.



(** Beyond that bound the hundredths can merge: at a peak velocity of
    1000000 m/s the three predicted times are all 0.15. *)
Lemma estimate_times_merge_at_extreme_velocity (d : RaceDistance) :
  RaceEstimate.predictedTime
    (estimateDistance d (RaceEstimatorInput.mk 1000000 0 1.0 green 0 30 15 None))
  == 0.15.
Proof. destruct d; reflexivity. Qed.


End EstimatorProperties.

(** ** Agreement of the model with the repository's test suite *)

Section RepositoryTests.

Import SilverSprintLogic SprintParser RaceEstimator.

Example calculateNFI_equal_peaks : calculateNFI 9.5 9.5 == 1.
Proof. reflexivity. Qed.

Example calculateSRS_floor :
  calculateSRS {| currentHRV := 30; avgHRV7d := 60 |} (-20) 0.9 = 0%Z.
Proof. reflexivity. Qed.

Example getRecoveryWindow_values :
  getRecoveryWindow 45 100 == 78 /\ getRecoveryWindow 45 0 == 126
  /\ getRecoveryWindow 35 100 == 48 /\ getRecoveryWindow 45 50 == 102.
Proof. repeat split; reflexivity. Qed.

(** The example of the source comment: age 49, normal HRV, TSB +2, NFI 0.92. *)
Example getSmartRecoveryWindow_stale :
  let hrv := {| currentHRV := 60; avgHRV7d := 60 |} in
  calculateSRS hrv 2 0.92 = 59%Z
  /\ getRecoveryWindow 49 59 == 122
  /\ srs (getSmartRecoveryWindow 49 hrv 2 0.92) = 79%Z
  /\ hours (getSmartRecoveryWindow 49 hrv 2 0.92) == 112
  /\ staleVmax (getSmartRecoveryWindow 49 hrv 2 0.92) = true.
Proof. repeat split; reflexivity. Qed.

Example isStaleVmax_values :
  isStaleVmax red (Some {| tsb := 5 |}) = true
  /\ isStaleVmax amber (Some {| tsb := 0 |}) = true
  /\ isStaleVmax red (Some {| tsb := -10 |}) = false
  /\ isStaleVmax green (Some {| tsb := 10 |}) = false
  /\ isStaleVmax red None = false.
Proof. repeat split; reflexivity. Qed.

Example parseTrackSession_empty :
  parseTrackSession {| velocity_smooth := Some [] |} = []
  /\ parseTrackSession {| velocity_smooth := None |} = [].
Proof. split; reflexivity. Qed.

(** One burst 2, 5, 7.5, 9, 9.2, 3 of 35.7 m: an Acceleration of 36 m over
    6 s, peak 9.2, best three-sample mean 8.57. *)
Example parseTrackSession_acceleration :
  exists iv,
    parseTrackSession
      {| velocity_smooth := Some [0; 0.5; 2.0; 5.0; 7.5; 9.0; 9.2; 3.0; 0.5; 0] |}
    = [iv]
    /\ TrackInterval.type iv = Acceleration
    /\ TrackInterval.distance iv == 36
    /\ TrackInterval.duration iv == 6
    /\ TrackInterval.vMax iv == 9.2
    /\ TrackInterval.flyingVelocity iv == 8.57.
Proof. eexists. repeat split; reflexivity. Qed.

Example formatTime_values :
  formatTime 11.23 = "11.23"%string /\ formatTime 59.99 = "59.99"%string
  /\ formatTime 62.45 = "1:02.45"%string /\ formatTime 120.0 = "2:00.00"%string
  /\ formatTime 0 = "--"%string.
Proof. repeat split; reflexivity. Qed.

Example generate_rationale_percentage :
  SprintWorkout.rationale (SprintWorkoutGenerator.generate red 0.920 None)
  = ("NFI at 92.0% — significant neural fatigue detected. No sprinting today. "
       ++ "Focus on recovery to restore CNS readiness.")%string.
Proof. reflexivity. Qed.

End RepositoryTests.

(* ================================================================== *)
(** * Further properties of the code *)
(* ================================================================== *)

(** ** Readiness scoring beyond the composite score *)

Section ReadinessProperties.

Import SilverSprintLogic.

Lemma Math_max_mono_r (a x y : Q) : x <= y -> Math_max a x <= Math_max a y.
Proof.
  intro H.
  pose proof (Math_max_spec a x) as (A1 & A2 & A3).
  pose proof (Math_max_spec a y) as (B1 & B2 & B3).
  destruct A3 as [A3|A3]; lra.
Qed.

Lemma clamp_monotone (lo hi x y : Q) :
  x <= y -> Math_min hi (Math_max lo x) <= Math_min hi (Math_max lo y).
Proof.
  intro Hxy.
  pose proof (Math_max_mono_r lo x y Hxy) as Hm.
  pose proof (Math_min_spec hi (Math_max lo x)) as (A1 & A2 & A3).
  pose proof (Math_min_spec hi (Math_max lo y)) as (B1 & B2 & B3).
  destruct B3 as [B3|B3]; lra.
Qed.

Lemma Math_round_plus_Z (x : Q) (k : Z) :
  Math_round (x + inject_Z k) = (Math_round x + k)%Z.
Proof.
  unfold Math_round.
  pose proof (Qfloor_le (x + (1 # 2))) as L1.
  pose proof (Qlt_floor (x + (1 # 2))) as U1.
  pose proof (Qfloor_le (x + inject_Z k + (1 # 2))) as L2.
  pose proof (Qlt_floor (x + inject_Z k + (1 # 2))) as U2.
  rewrite inject_Z_plus in U1, U2. change (inject_Z 1) with 1 in U1, U2.
  assert (H1 : (Qfloor (x + inject_Z k + (1 # 2)) < Qfloor (x + (1 # 2)) + k + 1)%Z).
  { rewrite Zlt_Qlt, !inject_Z_plus. change (inject_Z 1) with 1. lra. }
  assert (H2 : (Qfloor (x + (1 # 2)) + k < Qfloor (x + inject_Z k + (1 # 2)) + 1)%Z).
  { rewrite Zlt_Qlt, !inject_Z_plus. change (inject_Z 1) with 1. lra. }
  lia.
Qed.

Lemma scale_mono (a b c d : Q) :
  0 < c -> 0 <= d -> a <= b -> a / c * d <= b / c * d.
Proof.
  intros Hc Hd Hab.
  apply Qmult_le_compat_r; [|exact Hd].
  apply Qmult_le_compat_r; [exact Hab|].
  apply Qlt_le_weak. apply Qinv_lt_0_compat. exact Hc.
Qed.

Lemma tsbScore_mono (t1 t2 : Q) : t1 <= t2 -> tsbScore t1 <= tsbScore t2.
Proof.
  intro H. unfold tsbScore. apply clamp_monotone.
  apply scale_mono; [reflexivity | discriminate | lra].
Qed.

Lemma nfiScore_mono (n1 n2 : Q) : n1 <= n2 -> nfiScore n1 <= nfiScore n2.
Proof.
  intro H. unfold nfiScore. apply clamp_monotone.
  apply scale_mono; [reflexivity | discriminate | lra].
Qed.

Lemma hrvScore_mono (c1 c2 avg : Q) :
  c1 <= c2 ->
  hrvScore {| currentHRV := c1; avgHRV7d := avg |}
  <= hrvScore {| currentHRV := c2; avgHRV7d := avg |}.
Proof.
  intro H. unfold hrvScore. simpl.
  destruct (gtb avg 0) eqn:E.
  - apply gtb_true_iff in E. apply clamp_monotone.
    assert (Hd : c1 / avg <= c2 / avg).
    { apply Qmult_le_compat_r; [exact H|].
      apply Qlt_le_weak. apply Qinv_lt_0_compat. exact E. }
    apply scale_mono; [reflexivity | discriminate | lra].
  - apply Qle_refl.
Qed.

(** The recovery score never falls when today's HRV, the training stress
    balance or the fatigue index rises, the other inputs being equal. *)
Theorem calculateSRS_monotone (c1 c2 avg t1 t2 n1 n2 : Q) :
  c1 <= c2 -> t1 <= t2 -> n1 <= n2 ->
  (calculateSRS {| currentHRV := c1; avgHRV7d := avg |} t1 n1
   <= calculateSRS {| currentHRV := c2; avgHRV7d := avg |} t2 n2)%Z.
Proof.
  intros Hc Ht Hn. unfold calculateSRS. apply Math_round_mono.
  pose proof (hrvScore_mono c1 c2 avg Hc).
  pose proof (tsbScore_mono t1 t2 Ht).
  pose proof (nfiScore_mono n1 n2 Hn).
  lra.
Qed.

Lemma calculateSRS_monotone_witness :
  Z.le (calculateSRS {| currentHRV := 50; avgHRV7d := 60 |} (-15) 0.92)
       (calculateSRS {| currentHRV := 60; avgHRV7d := 60 |} 10 1.0).
Proof.
  apply calculateSRS_monotone; unfold Qle; simpl; lia.
Defined.

(** The fatigue index of a non-negative peak against a positive baseline is
    non-negative and does not fall when the peak rises; a peak equal to the
    baseline gives exactly 1, which is in the green band. *)
Theorem calculateNFI_monotone_and_neutral (v1 v2 baseline : Q) :
  0 < baseline -> 0 <= v1 -> v1 <= v2 ->
  0 <= calculateNFI v1 baseline
  /\ calculateNFI v1 baseline <= calculateNFI v2 baseline
  /\ calculateNFI baseline baseline == 1
  /\ getNFIStatus (calculateNFI baseline baseline) = green.
Proof.
  intros Hb H1 H12. unfold calculateNFI.
  assert (E : gtb baseline 0 = true) by (apply gtb_true_iff; exact Hb).
  rewrite E.
  assert (Hpos : 0 <= v1 / baseline).
  { apply Qle_shift_div_l; [exact Hb|]. lra. }
  assert (Hle : v1 / baseline <= v2 / baseline).
  { apply Qmult_le_compat_r; [exact H12|].
    apply Qlt_le_weak. apply Qinv_lt_0_compat. exact Hb. }
  assert (Hone : toFixed_number 3 (baseline / baseline) == 1).
  { rewrite (toFixed_number_comp 3 (baseline / baseline) 1).
    - reflexivity.
    - field. lra. }
  split; [|split; [|split]].
  - apply Qle_trans with (toFixed_number 3 0); [vm_compute; discriminate|].
    apply toFixed_number_mono; [apply Qle_refl | exact Hpos].
  - apply toFixed_number_mono; assumption.
  - exact Hone.
  - unfold getNFIStatus.
    assert (G : gtb (toFixed_number 3 (baseline / baseline)) 0.97 = true)
      by (apply gtb_true_iff; rewrite Hone; reflexivity).
    rewrite G. reflexivity.
Qed.

Lemma calculateNFI_monotone_and_neutral_witness :
  0 <= calculateNFI 8.5 9.5
  /\ calculateNFI 8.5 9.5 <= calculateNFI 10 9.5
  /\ calculateNFI 9.5 9.5 == 1
  /\ getNFIStatus (calculateNFI 9.5 9.5) = green.
Proof.
  apply calculateNFI_monotone_and_neutral; unfold Qlt, Qle; simpl; lia.
Defined.

(** The age tax of the recovery window: 48 h plus 6 h per year past 40. *)
Lemma recovery_window_split (age s : Q) :
  getRecoveryWindow age s
  == 48 + Math_max 0 ((age - 40) * 6)
     + inject_Z (Math_round ((1 - s / 100) * 48)).
Proof. reflexivity. Qed.

Lemma srs_penalty_antitone (s1 s2 : Q) :
  s1 <= s2 ->
  Z.le (Math_round ((1 - s2 / 100) * 48)) (Math_round ((1 - s1 / 100) * 48)).
Proof.
  intro H. apply Math_round_mono.
  assert (Hd : s1 / 100 <= s2 / 100).
  { apply Qmult_le_compat_r; [exact H | discriminate]. }
  lra.
Qed.

(** The recovery window never shrinks with age and never grows with the
    recovery score. *)
Theorem getRecoveryWindow_monotone (age1 age2 s1 s2 : Q) :
  age1 <= age2 -> s1 <= s2 ->
  getRecoveryWindow age1 s2 <= getRecoveryWindow age2 s1.
Proof.
  intros Ha Hs. rewrite !recovery_window_split.
  pose proof (Math_max_mono_r 0 ((age1 - 40) * 6) ((age2 - 40) * 6)) as Hm.
  pose proof (srs_penalty_antitone s1 s2 Hs) as Hp.
  rewrite Zle_Qle in Hp.
  assert (Hm' : Math_max 0 ((age1 - 40) * 6) <= Math_max 0 ((age2 - 40) * 6))
    by (apply Hm; lra).
  lra.
Qed.

Lemma getRecoveryWindow_monotone_witness :
  getRecoveryWindow 45 80 <= getRecoveryWindow 50 30.
Proof.
  apply getRecoveryWindow_monotone; unfold Qle; simpl; lia.
Defined.

(** For a recovery score between 0 and 100 the window is a whole number of
    hours between the age-taxed base and 48 h more; it is never below 48 h,
    and is exactly 48 h up to age 40 at a score of 100. *)
Theorem getRecoveryWindow_bounds (age s : Q) :
  0 <= s -> s <= 100 ->
  let base := 48 + Math_max 0 ((age - 40) * 6) in
  48 <= base
  /\ base <= getRecoveryWindow age s
  /\ getRecoveryWindow age s <= base + 48
  /\ (exists extra : Z, getRecoveryWindow age s == base + inject_Z extra)
  /\ (age <= 40 -> getRecoveryWindow age 100 == 48).
Proof.
  intros H0 H100 base.
  pose proof (Math_max_spec 0 ((age - 40) * 6)) as (M1 & M2 & M3).
  assert (Hd0 : 0 <= s / 100).
  { apply Qle_shift_div_l; [reflexivity | lra]. }
  assert (Hd1 : s / 100 <= 1).
  { apply Qle_shift_div_r; [reflexivity | lra]. }
  assert (Hlo : Z.le 0 (Math_round ((1 - s / 100) * 48)))
    by (apply Math_round_ge_const; unfold inject_Z; lra).
  assert (Hhi : Z.le (Math_round ((1 - s / 100) * 48)) 48)
    by (apply Math_round_le_const; unfold inject_Z; lra).
  rewrite Zle_Qle in Hlo, Hhi. unfold inject_Z at 1 in Hlo.
  unfold inject_Z at 2 in Hhi.
  rewrite !recovery_window_split. fold base.
  split; [unfold base; lra|]. split; [lra|]. split; [lra|].
  split; [eexists; reflexivity|].
  intro Hage. rewrite (recovery_window_split age 100).
  assert (E : Math_round ((1 - 100 / 100) * 48) = 0%Z) by reflexivity.
  rewrite E. destruct M3 as [M3|M3]; unfold inject_Z; lra.
Qed.

Lemma getRecoveryWindow_bounds_witness :
  48 <= getRecoveryWindow 45 50 /\ getRecoveryWindow 45 50 <= 126.
Proof.
  destruct (getRecoveryWindow_bounds 45 50) as (B1 & B2 & B3 & _).
  - unfold Qle; simpl; lia.
  - unfold Qle; simpl; lia.
  - split.
    + eapply Qle_trans; [exact B1 | exact B2].
    + eapply Qle_trans; [exact B3 | vm_compute; discriminate].
Defined.

(** The freshness adjustment lifts the score by at most the 25 points the
    fatigue index weighs, and leaves it alone for a green fatigue index or a
    negative training stress balance. *)
Theorem calculateFreshnessAdjustedSRS_bounded (hrv : HRVData) (t nfi : Q) :
  (calculateFreshnessAdjustedSRS hrv t nfi <= calculateSRS hrv t nfi + 25)%Z
  /\ (0.97 < nfi \/ t < 0 ->
      calculateFreshnessAdjustedSRS hrv t nfi = calculateSRS hrv t nfi).
Proof.
  unfold calculateFreshnessAdjustedSRS.
  destruct ((NFIStatus_eqb (getNFIStatus nfi) red
             || NFIStatus_eqb (getNFIStatus nfi) amber) && geb t 0) eqn:E.
  - split.
    + unfold calculateSRS. rewrite <- Math_round_plus_Z.
      apply Math_round_mono.
      pose proof (nfiScore_range nfi) as [Hlo _].
      pose proof (nfiScore_range 1.0) as [_ Hhi].
      unfold inject_Z. lra.
    + intros [Hg|Ht].
      * apply andb_true_iff in E. destruct E as [E _].
        unfold getNFIStatus in E.
        assert (G : gtb nfi 0.97 = true) by (apply gtb_true_iff; exact Hg).
        rewrite G in E. discriminate E.
      * apply andb_true_iff in E. destruct E as [_ E].
        apply geb_true_iff in E. lra.
  - split; [lia | reflexivity].
Qed.

Lemma calculateFreshnessAdjustedSRS_bounded_witness :
  calculateFreshnessAdjustedSRS {| currentHRV := 60; avgHRV7d := 60 |} (-10) 0.92
  = calculateSRS {| currentHRV := 60; avgHRV7d := 60 |} (-10) 0.92.
Proof.
  apply (proj2 (calculateFreshnessAdjustedSRS_bounded
                  {| currentHRV := 60; avgHRV7d := 60 |} (-10) 0.92)).
  right. reflexivity.
Defined.

(** The smart recovery window reports the freshness-adjusted score and the
    stale flag of [isStaleVmax], and is never longer than the window of
    the plain score; without a stale signal the two windows coincide. *)
Theorem getSmartRecoveryWindow_not_longer (age : Q) (hrv : HRVData) (t nfi : Q) :
  let smart := getSmartRecoveryWindow age hrv t nfi in
  let standard := getRecoveryWindow age (inject_Z (calculateSRS hrv t nfi)) in
  srs smart = calculateFreshnessAdjustedSRS hrv t nfi
  /\ staleVmax smart = isStaleVmax (getNFIStatus nfi) (Some {| tsb := t |})
  /\ hours smart <= standard
  /\ (staleVmax smart = false -> hours smart == standard).
Proof.
  intros smart standard. unfold smart, standard, getSmartRecoveryWindow.
  cbn [srs staleVmax hours].
  split; [reflexivity|]. split; [reflexivity|].
  unfold calculateFreshnessAdjustedSRS.
  destruct ((NFIStatus_eqb (getNFIStatus nfi) red
             || NFIStatus_eqb (getNFIStatus nfi) amber) && geb t 0) eqn:E.
  - split; [|discriminate].
    rewrite !recovery_window_split.
    assert (Hn : nfiScore nfi <= nfiScore 1.0).
    { assert (Hs : nfiScore 1.0 == 100) by reflexivity.
      pose proof (nfiScore_range nfi) as [_ Hhi]. lra. }
    assert (Hs : Z.le (calculateSRS hrv t nfi) (calculateSRS hrv t 1.0)).
    { unfold calculateSRS. apply Math_round_mono. lra. }
    rewrite Zle_Qle in Hs.
    pose proof (srs_penalty_antitone _ _ Hs) as Hp.
    rewrite Zle_Qle in Hp. lra.
  - split; [apply Qle_refl | reflexivity].
Qed.

(** The strength zone follows the training stress balance: fresh from 0
    upwards, tired from -20 up to 0, fatigued below -20; the intensity is
    high, moderate and none in that order. *)
Theorem getStrengthPrescription_zones (t : Q) :
  let rx := getStrengthPrescription t in
  (StrengthPrescription.zone rx = StrengthPrescription.fresh <-> 0 <= t)
  /\ (StrengthPrescription.zone rx = StrengthPrescription.tired
      <-> -20 <= t /\ t < 0)
  /\ (StrengthPrescription.zone rx = StrengthPrescription.fatigued <-> t < -20)
  /\ StrengthPrescription.intensity rx
     = match StrengthPrescription.zone rx with
       | StrengthPrescription.fresh => StrengthPrescription.high
       | StrengthPrescription.tired => StrengthPrescription.moderate
       | StrengthPrescription.fatigued => StrengthPrescription.none
       end.
Proof.
  unfold getStrengthPrescription.
  destruct (geb t 0) eqn:E0.
  - apply geb_true_iff in E0. cbn.
    repeat split; intros; try discriminate; try lra.
  - apply geb_false_iff in E0.
    destruct (geb t (-20)) eqn:E20.
    + apply geb_true_iff in E20. cbn.
      repeat split; intros; try discriminate; try lra.
    + apply geb_false_iff in E20. cbn.
      repeat split; intros; try discriminate; try lra.
Qed.

End ReadinessProperties.

(** ** Strength periodization *)

Section PeriodizationProperties.

Import SilverSprintLogic StrengthPeriodization.

(** A load estimate is missing exactly for an exercise without a body-weight
    multiplier or with multiplier 0.  Otherwise it is the product of
    multiplier and body weight to the nearest kilogram, and for a positive
    multiplier it does not fall when the body weight rises. *)
Theorem estimateWeightKg_spec (exercise : Exercise.t) (bodyWeightKg : Q) :
  (estimateWeightKg exercise bodyWeightKg = None
   <-> Exercise.bwMultiplier exercise = None
       \/ exists m, Exercise.bwMultiplier exercise = Some m /\ m == 0)
  /\ (forall kg : Z,
         estimateWeightKg exercise bodyWeightKg = Some kg ->
         exists m,
           Exercise.bwMultiplier exercise = Some m
           /\ m * bodyWeightKg - (1 # 2) < inject_Z kg
           /\ inject_Z kg <= m * bodyWeightKg + (1 # 2))
  /\ (forall (m heavier : Q) (kg : Z),
         Exercise.bwMultiplier exercise = Some m -> 0 < m ->
         bodyWeightKg <= heavier ->
         estimateWeightKg exercise bodyWeightKg = Some kg ->
         exists kg' : Z,
           estimateWeightKg exercise heavier = Some kg' /\ (kg <= kg')%Z).
Proof.
  unfold estimateWeightKg.
  destruct (Exercise.bwMultiplier exercise) as [m|] eqn:Em.
  - destruct (Qeq_bool m 0) eqn:E0.
    + apply Qeq_bool_iff in E0.
      split; [|split].
      * split; [|reflexivity]. intros _. right. exists m. split; [reflexivity|exact E0].
      * intros kg H. discriminate H.
      * intros m' heavier kg _ _ _ H. discriminate H.
    + assert (N0 : ~ m == 0).
      { intro H. apply Qeq_bool_iff in H. congruence. }
      split; [|split].
      * split; [discriminate|].
        intros [H|(m' & H & H0)]; [discriminate|].
        injection H as <-. contradiction.
      * intros kg H. injection H as <-. exists m.
        split; [reflexivity|].
        unfold Math_round.
        pose proof (Qfloor_le (m * bodyWeightKg + (1 # 2))) as Hlo.
        pose proof (Qlt_floor (m * bodyWeightKg + (1 # 2))) as Hhi.
        rewrite inject_Z_plus in Hhi. change (inject_Z 1) with 1 in Hhi.
        split; lra.
      * intros m' heavier kg Hm Hpos Hle H.
        injection Hm as <-. injection H as <-.
        eexists. split; [reflexivity|].
        apply Math_round_mono. nra.
  - split; [|split].
    + split; [|reflexivity]. intros _. left. reflexivity.
    + intros kg H. discriminate H.
    + intros m heavier kg Hm. discriminate Hm.
Qed.

Lemma estimateWeightKg_spec_witness :
  exists kg' : Z,
    estimateWeightKg
      (Exercise.mk "Trap Bar Deadlift" ExerciseType.strength 3 (RepsCount 3) "85%"
         None (Some 1.7)) 90 = Some kg'
    /\ (136 <= kg')%Z.
Proof.
  pose (ex := Exercise.mk "Trap Bar Deadlift" ExerciseType.strength 3
                (RepsCount 3) "85%" None (Some 1.7)).
  apply (proj2 (proj2 (estimateWeightKg_spec ex 80)) 1.7 90 136%Z).
  - reflexivity.
  - reflexivity.
  - unfold Qle; simpl; lia.
  - reflexivity.
Defined.

(** The gym prescription takes the zone of the strength prescription and
    lists three exercises.  In the fresh zone (balance of 0 or more) every
    exercise gets a load estimate, whatever the body weight; in the tired
    and fatigued zones none does. *)
Theorem getPrescription_loads (t bodyWeightKg : Q) :
  let rx := getPrescription t in
  PeriodizationPrescription.zone rx
  = StrengthPrescription.zone (getStrengthPrescription t)
  /\ List.length (PeriodizationPrescription.exercises rx) = 3%nat
  /\ (0 <= t ->
      Forall (fun ex => exists kg, estimateWeightKg ex bodyWeightKg = Some kg)
             (PeriodizationPrescription.exercises rx))
  /\ (t < 0 ->
      Forall (fun ex => estimateWeightKg ex bodyWeightKg = None)
             (PeriodizationPrescription.exercises rx)).
Proof.
  unfold getPrescription, getStrengthPrescription.
  destruct (geb t 0) eqn:E0.
  - apply geb_true_iff in E0. cbn.
    split; [reflexivity|]. split; [reflexivity|]. split.
    + intros _. repeat constructor; eexists; reflexivity.
    + intro H. lra.
  - apply geb_false_iff in E0.
    destruct (geb t (-20)) eqn:E20; cbn;
      (split; [reflexivity|]; split; [reflexivity|]; split;
       [intro H; lra | intros _; repeat constructor]).
Qed.

Lemma getPrescription_loads_witness :
  Forall (fun ex => exists kg, estimateWeightKg ex 80 = Some kg)
         (PeriodizationPrescription.exercises (getPrescription 10))
  /\ Forall (fun ex => estimateWeightKg ex 80 = None)
            (PeriodizationPrescription.exercises (getPrescription (-30))).
Proof.
  split.
  - apply (proj1 (proj2 (proj2 (getPrescription_loads 10 80)))).
    unfold Qle; simpl; lia.
  - apply (proj2 (proj2 (proj2 (getPrescription_loads (-30) 80)))).
    reflexivity.
Defined.

End PeriodizationProperties.

(** ** The parser loop as a whole *)

Section ParserLoopProperties.

Import SprintParser.

Lemma step_below_threshold (st : LoopState) (v : number) :
  v < 1 ->
  step st v = step st 0 /\ currentBurst (step st v) = [].
Proof.
  intro Hv. unfold step.
  assert (E : geb v MOVING_THRESHOLD = false)
    by (apply geb_false_iff; unfold MOVING_THRESHOLD; lra).
  assert (E0 : geb 0 MOVING_THRESHOLD = false) by reflexivity.
  rewrite E, E0. split; [reflexivity|].
  destruct (currentBurst st) as [|x xs] eqn:Eb; simpl.
  - exact Eb.
  - reflexivity.
Qed.

(** Intervals already pushed stay in front of whatever the loop adds. *)
Lemma step_shift (done ivs : list TrackInterval.t) (burst : list number) (v : number) :
  step {| intervals := done ++ ivs; currentBurst := burst |} v
  = {| intervals :=
         done ++ intervals (step {| intervals := ivs; currentBurst := burst |} v);
       currentBurst :=
         currentBurst (step {| intervals := ivs; currentBurst := burst |} v) |}.
Proof.
  unfold step. cbn [intervals currentBurst].
  destruct (geb v MOVING_THRESHOLD); [reflexivity|].
  match goal with
  | |- context [Nat.ltb 0 ?n] => destruct (Nat.ltb 0 n); [|reflexivity]
  end.
  destruct (classifyBurst burst) as [iv|]; cbn [intervals currentBurst].
  - rewrite app_assoc. reflexivity.
  - reflexivity.
Qed.

Lemma fold_step_shift (samples : list number) (done ivs : list TrackInterval.t)
    (burst : list number) :
  fold_left step samples {| intervals := done ++ ivs; currentBurst := burst |}
  = {| intervals :=
         done ++ intervals (fold_left step samples
                              {| intervals := ivs; currentBurst := burst |});
       currentBurst :=
         currentBurst (fold_left step samples
                         {| intervals := ivs; currentBurst := burst |}) |}.
Proof.
  revert ivs burst. induction samples as [|v samples IH]; intros ivs burst.
  - reflexivity.
  - cbn [fold_left]. rewrite step_shift.
    destruct (step {| intervals := ivs; currentBurst := burst |} v) as [ivs' burst'].
    cbn [intervals currentBurst]. apply IH.
Qed.

Lemma parse_as_fold (stream : list number) :
  parse stream
  = intervals
      (step (fold_left step stream {| intervals := []; currentBurst := [] |}) 0).
Proof.
  unfold parse, parseTrackSession. cbn [velocity_smooth].
  rewrite fold_left_app. reflexivity.
Qed.

(** From a state without an open burst the loop adds to the intervals of
    that state what it would produce from the start. *)
Lemma closed_state_prefix (st : LoopState) (samples : list number) :
  currentBurst st = [] ->
  intervals (step (fold_left step samples st) 0)
  = intervals st
    ++ intervals
         (step (fold_left step samples
                  {| intervals := []; currentBurst := [] |}) 0).
Proof.
  destruct st as [ivs b]. cbn [currentBurst intervals]. intros ->.
  pose proof (fold_step_shift samples ivs [] []) as H.
  rewrite app_nil_r in H. rewrite H.
  destruct (fold_left step samples {| intervals := []; currentBurst := [] |})
    as [i2 b2].
  cbn [intervals currentBurst]. rewrite step_shift. reflexivity.
Qed.

(** Nothing moving, nothing parsed: a missing stream, and a stream whose
    samples all stay below the 1 m/s threshold, give no interval. *)
Theorem parseTrackSession_nothing_moving :
  parseTrackSession {| velocity_smooth := None |} = []
  /\ forall stream : list number,
      Forall (fun v => v < 1) stream ->
      parseTrackSession {| velocity_smooth := Some stream |} = [].
Proof.
  split; [reflexivity|].
  intros stream Hall. unfold parseTrackSession. cbn [velocity_smooth].
  assert (H : forall l, Forall (fun v => v < 1) l ->
              fold_left step l {| intervals := []; currentBurst := [] |}
              = {| intervals := []; currentBurst := [] |}).
  { induction l as [|v l IH]; intro Hl; [reflexivity|].
    inversion Hl as [|? ? Hv Hl']; subst. cbn [fold_left].
    assert (E : step {| intervals := []; currentBurst := [] |} v
                = {| intervals := []; currentBurst := [] |}).
    { unfold step.
      assert (G : geb v MOVING_THRESHOLD = false)
        by (apply geb_false_iff; unfold MOVING_THRESHOLD; lra).
      rewrite G. reflexivity. }
    rewrite E. apply IH. exact Hl'. }
  rewrite H; [reflexivity|].
  apply Forall_app. split; [exact Hall|].
  constructor; [reflexivity | constructor].
Qed.

Lemma parseTrackSession_nothing_moving_witness :
  parseTrackSession {| velocity_smooth := Some [0; 0.5; 0.99; 0] |} = [].
Proof.
  apply (proj2 parseTrackSession_nothing_moving).
  repeat constructor.
Defined.

(** A sample below the threshold separates the stream: what precedes it and
    what follows it are parsed independently and in order.  In particular a
    resting sample at either end changes nothing. *)
Theorem parseTrackSession_rest_separates (before after : list number) (v : number) :
  v < 1 ->
  parse (before ++ v :: after) = parse before ++ parse after
  /\ parse (before ++ [v]) = parse before
  /\ parse (v :: after) = parse after.
Proof.
  intro Hv.
  assert (Hsplit : forall s1 s2,
             parse (s1 ++ v :: s2) = parse s1 ++ parse s2).
  { intros s1 s2. rewrite !parse_as_fold.
    rewrite fold_left_app. cbn [fold_left].
    destruct (step_below_threshold
                (fold_left step s1 {| intervals := []; currentBurst := [] |})
                v Hv) as [E Eb].
    rewrite (closed_state_prefix _ s2 Eb). rewrite E. reflexivity. }
  split; [apply Hsplit|]. split.
  - rewrite (Hsplit before []).
    assert (E : parse [] = []) by reflexivity.
    rewrite E. apply app_nil_r.
  - apply (Hsplit [] after).
Qed.

Lemma parseTrackSession_rest_separates_witness :
  parse ([2; 5; 7.5] ++ 0.5 :: [9; 9.5; 9])
  = parse [2; 5; 7.5] ++ parse [9; 9.5; 9].
Proof.
  apply (parseTrackSession_rest_separates [2; 5; 7.5] [9; 9.5; 9] 0.5).
  reflexivity.
Defined.

End ParserLoopProperties.

(** ** What every parsed interval carries *)

Section IntervalMetrics.

Import SprintParser.

Lemma sum_from (xs : list number) (a : number) : fold_left Qplus xs a == a + sum xs.
Proof.
  unfold sum. revert a. induction xs as [|x xs IH]; intro a; cbn [fold_left].
  - lra.
  - rewrite (IH (a + x)), (IH (0 + x)). lra.
Qed.

Lemma sum_cons (x : number) (xs : list number) : sum (x :: xs) == x + sum xs.
Proof. unfold sum at 1. cbn [fold_left]. rewrite sum_from. lra. Qed.

Lemma inject_length_cons (x : number) (xs : list number) :
  inject_Z (Z.of_nat (List.length (x :: xs)))
  == 1 + inject_Z (Z.of_nat (List.length xs)).
Proof.
  cbn [List.length]. rewrite Nat2Z.inj_succ. unfold Z.succ.
  rewrite inject_Z_plus. change (inject_Z 1) with 1. ring.
Qed.

(** A list of numbers between [lo] and [hi] sums to between [length * lo]
    and [length * hi]. *)
Lemma sum_between (lo hi : number) (xs : list number) :
  Forall (fun v => lo <= v /\ v <= hi) xs ->
  inject_Z (Z.of_nat (List.length xs)) * lo <= sum xs
  /\ sum xs <= inject_Z (Z.of_nat (List.length xs)) * hi.
Proof.
  induction 1 as [|x xs [Hlo Hhi] _ [IH1 IH2]].
  - split; vm_compute; discriminate.
  - rewrite sum_cons, inject_length_cons.
    revert IH1 IH2. generalize (inject_Z (Z.of_nat (List.length xs))).
    intros n IH1 IH2. split; nra.
Qed.

Lemma mean_between (lo hi : number) (xs : list number) :
  xs <> [] -> Forall (fun v => lo <= v /\ v <= hi) xs ->
  lo <= sum xs / inject_Z (Z.of_nat (List.length xs))
  /\ sum xs / inject_Z (Z.of_nat (List.length xs)) <= hi.
Proof.
  intros Hne Hall. destruct (sum_between lo hi xs Hall) as [H1 H2].
  assert (Hn : 0 < inject_Z (Z.of_nat (List.length xs))).
  { destruct xs as [|x xs]; [contradiction|].
    change 0 with (inject_Z 0). rewrite <- Zlt_Qlt. cbn [List.length]. lia. }
  revert H1 H2 Hn. generalize (inject_Z (Z.of_nat (List.length xs))).
  intros n H1 H2 Hn. split.
  - apply Qle_shift_div_l; [exact Hn|]. nra.
  - apply Qle_shift_div_r; [exact Hn|]. nra.
Qed.

(** The running maximum dominates its start and every element, and is one
    of them. *)
Lemma fold_Math_max_spec (xs : list number) (a : number) :
  a <= fold_left Math_max xs a
  /\ Forall (fun v => v <= fold_left Math_max xs a) xs
  /\ (fold_left Math_max xs a = a \/ In (fold_left Math_max xs a) xs).
Proof.
  revert a. induction xs as [|x xs IH]; intro a; cbn [fold_left].
  - split; [apply Qle_refl|]. split; [constructor | left; reflexivity].
  - destruct (IH (Math_max a x)) as (H1 & H2 & H3).
    pose proof (Math_max_spec a x) as (M1 & M2 & _).
    split; [lra|]. split.
    + constructor; [lra | exact H2].
    + destruct H3 as [H3|H3].
      * rewrite H3.
        destruct (Math_max_cases a x) as [[_ E]|[_ E]]; rewrite E.
        -- right. left. reflexivity.
        -- left. reflexivity.
      * right. right. exact H3.
Qed.

Lemma Math_max_spread_spec (xs : list number) :
  xs <> [] ->
  Forall (fun v => v <= Math_max_spread xs) xs /\ In (Math_max_spread xs) xs.
Proof.
  destruct xs as [|x xs]; [contradiction|]. intros _.
  unfold Math_max_spread.
  destruct (fold_Math_max_spec xs x) as (H1 & H2 & H3).
  split.
  - constructor; assumption.
  - destruct H3 as [H3|H3]; [left; symmetry; exact H3 | right; exact H3].
Qed.

Lemma slice_Forall (P : number -> Prop) (xs : list number) (i j : nat) :
  Forall P xs -> Forall P (slice xs i j).
Proof.
  intro H. unfold slice. rewrite Forall_forall in *.
  intros v Hv. apply H.
  rewrite <- (firstn_skipn i xs). apply in_or_app. right.
  rewrite <- (firstn_skipn (j - i) (skipn i xs)). apply in_or_app. left.
  exact Hv.
Qed.

Lemma slice_length (xs : list number) (i w : nat) :
  (i + w <= List.length xs)%nat -> List.length (slice xs i (i + w)) = w.
Proof.
  intro H. unfold slice. rewrite length_firstn, length_skipn. lia.
Qed.

(** Every window mean lies between the bounds of the samples. *)
Lemma windowMeans_between (lo hi : number) (burst : list number) :
  burst <> [] -> Forall (fun v => lo <= v /\ v <= hi) burst ->
  windowMeans burst <> []
  /\ Forall (fun m => lo <= m /\ m <= hi) (windowMeans burst).
Proof.
  intros Hne Hall. unfold windowMeans.
  assert (Hlen : (0 < List.length burst)%nat).
  { destruct burst; [contradiction | cbn; lia]. }
  set (w := Nat.min 3 (List.length burst)).
  assert (Hw : (0 < w /\ w <= List.length burst)%nat) by (unfold w; lia).
  split.
  - replace (List.length burst - w + 1)%nat with (S (List.length burst - w)) by lia.
    cbn [seq map]. discriminate.
  - rewrite Forall_forall. intros m Hm.
    apply in_map_iff in Hm. destruct Hm as (i & <- & Hi).
    apply in_seq in Hi.
    assert (Hs : List.length (slice burst i (i + w)) = w)
      by (apply slice_length; lia).
    rewrite <- Hs at 2 4.
    apply mean_between.
    + intro E. rewrite E in Hs. cbn [List.length] in Hs.
      destruct Hw as [Hw0 _]. rewrite <- Hs in Hw0. inversion Hw0.
    + apply slice_Forall. exact Hall.
Qed.

Lemma parse_split_at_rest (s1 s2 : list number) (v : number) :
  v < 1 -> parse (s1 ++ v :: s2) = parse s1 ++ parse s2.
Proof.
  intro Hv. rewrite !parse_as_fold.
  rewrite fold_left_app. cbn [fold_left].
  destruct (step_below_threshold
              (fold_left step s1 {| intervals := []; currentBurst := [] |})
              v Hv) as [E Eb].
  rewrite (closed_state_prefix _ s2 Eb). rewrite E. reflexivity.
Qed.

(** Moving samples only extend the open burst. *)
Lemma fold_step_moving (run acc : list number) :
  Forall (fun v => 1 <= v) run ->
  fold_left step run {| intervals := []; currentBurst := acc |}
  = {| intervals := []; currentBurst := acc ++ run |}.
Proof.
  revert acc. induction run as [|v run IH]; intros acc Hall.
  - rewrite app_nil_r. reflexivity.
  - inversion Hall as [|? ? Hv Hrun]; subst. cbn [fold_left].
    assert (E : step {| intervals := []; currentBurst := acc |} v
                = {| intervals := []; currentBurst := acc ++ [v] |}).
    { unfold step.
      assert (G : geb v MOVING_THRESHOLD = true)
        by (apply geb_true_iff; unfold MOVING_THRESHOLD; lra).
      rewrite G. reflexivity. }
    rewrite E, (IH (acc ++ [v]) Hrun), <- app_assoc. reflexivity.
Qed.

(** A stream without a resting sample is one burst. *)
Lemma parse_moving (run : list number) (iv : TrackInterval.t) :
  Forall (fun v => 1 <= v) run ->
  In iv (parse run) -> run <> [] /\ classifyBurst run = Some iv.
Proof.
  intros Hall Hin. rewrite parse_as_fold in Hin.
  rewrite (fold_step_moving run [] Hall) in Hin. cbn [app] in Hin.
  destruct run as [|x run]; [contradiction Hin|].
  split; [discriminate|].
  unfold step in Hin. cbn [geb MOVING_THRESHOLD] in Hin.
  assert (G : geb 0 MOVING_THRESHOLD = false) by reflexivity.
  rewrite G in Hin. cbn [currentBurst intervals List.length Nat.ltb Nat.leb] in Hin.
  destruct (classifyBurst (x :: run)) as [iv'|]; cbn [intervals app] in Hin.
  - destruct Hin as [<-|[]]. reflexivity.
  - contradiction Hin.
Qed.

Lemma moving_run_after_rest (run rest burst : list number) (v : number) :
  v < 1 -> moving_run rest burst -> moving_run (run ++ v :: rest) burst.
Proof.
  intros Hv (Hne & Hall & before & after & -> & Hb & Ha).
  split; [exact Hne|]. split; [exact Hall|].
  exists (run ++ v :: before), after. split.
  - rewrite <- app_assoc. reflexivity.
  - split; [|exact Ha]. right.
    destruct Hb as [->|(b & x & -> & Hx)].
    + exists run, v. split; [reflexivity | exact Hv].
    + exists (run ++ v :: b), x. split; [|exact Hx].
      rewrite <- app_assoc. reflexivity.
Qed.

(** Every interval is [classifyBurst] of a maximal run of moving samples
    of the stream; [run] is the part of the current run already read. *)
Lemma parse_from_moving_run (rest run : list number) (iv : TrackInterval.t) :
  Forall (fun v => 1 <= v) run ->
  In iv (parse (run ++ rest)) ->
  exists burst, moving_run (run ++ rest) burst /\ classifyBurst burst = Some iv.
Proof.
  revert run. induction rest as [|v rest IH]; intros run Hall Hin.
  - rewrite app_nil_r in *.
    destruct (parse_moving run iv Hall Hin) as [Hne Hc].
    exists run. split; [|exact Hc].
    split; [exact Hne|]. split; [exact Hall|].
    exists [], []. rewrite app_nil_r. split; [reflexivity|].
    split; left; reflexivity.
  - destruct (Qlt_le_dec v 1) as [Hv|Hv].
    + rewrite (parse_split_at_rest run rest v Hv) in Hin.
      apply in_app_or in Hin. destruct Hin as [Hin|Hin].
      * destruct (parse_moving run iv Hall Hin) as [Hne Hc].
        exists run. split; [|exact Hc].
        split; [exact Hne|]. split; [exact Hall|].
        exists [], (v :: rest). split; [reflexivity|].
        split; [left; reflexivity|].
        right. exists v, rest. split; [reflexivity | exact Hv].
      * destruct (IH [] (Forall_nil _) Hin) as (burst & Hrun & Hc).
        exists burst. split; [|exact Hc].
        apply moving_run_after_rest; assumption.
    + assert (E : run ++ v :: rest = (run ++ [v]) ++ rest)
        by (rewrite <- app_assoc; reflexivity).
      rewrite E in *. apply IH; [|exact Hin].
      apply Forall_app. split; [exact Hall|].
      constructor; [exact Hv | constructor].
Qed.

Lemma parseTrackSession_moving_run (activity : Activity) (iv : TrackInterval.t) :
  In iv (parseTrackSession activity) ->
  exists stream burst : list number,
    velocity_smooth activity = Some stream
    /\ moving_run stream burst
    /\ classifyBurst burst = Some iv.
Proof.
  destruct activity as [[stream|]]; intro Hin.
  - destruct (parse_from_moving_run stream [] iv (Forall_nil _) Hin)
      as (burst & Hrun & Hc).
    exists stream, burst. split; [reflexivity|]. split; assumption.
  - contradiction Hin.
Qed.

Lemma classifyBurst_Some_metrics (burst : list number) (iv : TrackInterval.t) :
  classifyBurst burst = Some iv ->
  TrackInterval.vMax iv = Math_max_spread burst
  /\ TrackInterval.duration iv = length_number burst
  /\ TrackInterval.flyingVelocity iv = computeFlyingVelocity burst.
Proof.
  unfold classifyBurst.
  destruct (ltb (sum burst) MIN_REP_DISTANCE); [discriminate|].
  intro H. injection H as <-. repeat split.
Qed.

(** Every interval the parser returns was measured on a maximal run of
    moving samples of the stream it was given: consecutive samples of at
    least 1 m/s with a resting sample or the end of the stream on either
    side.  Its duration is the number of samples of that run, at least 1;
    its peak velocity is one of those samples and none of them exceeds it;
    its flying velocity is at least 1 m/s and exceeds the peak velocity by
    no more than the half hundredth that rounding can add. *)
Theorem parseTrackSession_interval_metrics
    (activity : Activity) (iv : TrackInterval.t) :
  In iv (parseTrackSession activity) ->
  exists stream burst : list number,
    velocity_smooth activity = Some stream
    /\ moving_run stream burst
    /\ TrackInterval.duration iv = inject_Z (Z.of_nat (List.length burst))
    /\ 1 <= TrackInterval.duration iv
    /\ In (TrackInterval.vMax iv) burst
    /\ Forall (fun v => v <= TrackInterval.vMax iv) burst
    /\ 1 <= TrackInterval.flyingVelocity iv
    /\ TrackInterval.flyingVelocity iv <= TrackInterval.vMax iv + 0.005.
Proof.
  intro Hin.
  destruct (parseTrackSession_moving_run activity iv Hin)
    as (stream & burst & Hs & Hrun & Hc).
  pose proof Hrun as (Hne & Hall & _).
  destruct (classifyBurst_Some_metrics burst iv Hc) as (Hv & Hd & Hf).
  destruct (Math_max_spread_spec burst Hne) as [Hmax Hmem].
  exists stream, burst. rewrite Hv, Hd, Hf.
  split; [exact Hs|]. split; [exact Hrun|]. split; [reflexivity|].
  split.
  { unfold length_number. change 1 with (inject_Z 1). rewrite <- Zle_Qle.
    destruct burst; [contradiction | cbn [List.length]; lia]. }
  split; [exact Hmem|]. split; [exact Hmax|].
  assert (Hboth : Forall (fun v => 1 <= v /\ v <= Math_max_spread burst) burst).
  { rewrite Forall_forall in *. intros v Hv'. split; [apply Hall | apply Hmax]; exact Hv'. }
  destruct (windowMeans_between 1 (Math_max_spread burst) burst Hne Hboth)
    as [Wne Wall].
  destruct (Math_max_spread_spec (windowMeans burst) Wne) as [_ Wmem].
  rewrite Forall_forall in Wall.
  destruct (Wall _ Wmem) as [Blo Bhi].
  destruct (Nat.le_gt_cases (List.length burst) 3) as [Hshort|Hlong].
  - rewrite (computeFlyingVelocity_short_burst burst Hne Hshort).
    split; lra.
  - rewrite (computeFlyingVelocity_long_burst burst Hlong Hall).
    unfold documentedFlyingVelocity. split.
    + apply Qle_trans with (toFixed_number 2 1); [vm_compute; discriminate|].
      apply toFixed_number_mono; [discriminate | exact Blo].
    + pose proof (toFixed_number_near 2 (Math_max_spread (windowMeans burst)))
        as Hn.
      change (inject_Z (pow10 2)) with 100 in Hn.
      revert Hn. apply Qabs_case; intros Hc' Hn; lra.
Qed.

Lemma parseTrackSession_interval_metrics_witness :
  let activity := {| velocity_smooth := Some [0; 0.5; 9; 9.5; 9; 0.5] |} in
  let iv := hd (TrackInterval.mk Acceleration 0 0 0 0) (parseTrackSession activity) in
  exists stream burst : list number,
    velocity_smooth activity = Some stream
    /\ moving_run stream burst
    /\ TrackInterval.duration iv = inject_Z (Z.of_nat (List.length burst))
    /\ 1 <= TrackInterval.duration iv
    /\ In (TrackInterval.vMax iv) burst
    /\ Forall (fun v => v <= TrackInterval.vMax iv) burst
    /\ 1 <= TrackInterval.flyingVelocity iv
    /\ TrackInterval.flyingVelocity iv <= TrackInterval.vMax iv + 0.005.
Proof.
  intros activity iv.
  apply (parseTrackSession_interval_metrics activity iv).
  vm_compute. left. reflexivity.
Defined.

End IntervalMetrics.

(** ** The estimator's factors *)

Section EstimatorFactors.

Import RaceEstimator.

(** The confidence label does not look at the training profile: it is high
    from 10 activities on with a positive 60-day best, moderate from 3
    activities on otherwise, and low below 3 activities. *)
Theorem getConfidence_spec
    (input : RaceEstimatorInput.t) (profile : option TrainingProfile.t) :
  getConfidence input profile = getConfidence input None
  /\ (getConfidence input profile = high
      <-> 10 <= RaceEstimatorInput.activityCount input
          /\ 0 < RaceEstimatorInput.bestVmax60d input)
  /\ (getConfidence input profile = moderate
      <-> 3 <= RaceEstimatorInput.activityCount input
          /\ ~ (10 <= RaceEstimatorInput.activityCount input
                /\ 0 < RaceEstimatorInput.bestVmax60d input))
  /\ (getConfidence input profile = low
      <-> RaceEstimatorInput.activityCount input < 3).
Proof.
  unfold getConfidence.
  set (good := match profile with
               | Some p => _
               | None => false
               end).
  destruct (geb (RaceEstimatorInput.activityCount input) 10) eqn:E10;
    destruct (gtb (RaceEstimatorInput.bestVmax60d input) 0) eqn:Eb;
    destruct (geb (RaceEstimatorInput.activityCount input) 3) eqn:E3;
    destruct good; cbn;
    try apply geb_true_iff in E10; try apply geb_false_iff in E10;
    try apply gtb_true_iff in Eb; try apply gtb_false_iff in Eb;
    try apply geb_true_iff in E3; try apply geb_false_iff in E3;
    (split; [reflexivity|]);
    repeat split; intros; try discriminate; try lra;
    try (intros [? ?]; lra).
Qed.

Lemma clamp_low_high_mono (lo hi x y : Q) :
  x <= y -> Math_max lo (Math_min hi x) <= Math_max lo (Math_min hi y).
Proof.
  intro H.
  pose proof (Math_min_spec hi x) as (A1 & A2 & A3).
  pose proof (Math_min_spec hi y) as (B1 & B2 & B3).
  pose proof (Math_max_spec lo (Math_min hi x)) as (C1 & C2 & C3).
  pose proof (Math_max_spec lo (Math_min hi y)) as (D1 & D2 & D3).
  destruct A3 as [A3|A3], B3 as [B3|B3], C3 as [C3|C3]; lra.
Qed.

(** Neither bonus nor penalty: a fatigue index of 1 with a balance between
    the two thresholds leaves the modifier at 1. *)
Lemma getReadinessModifier_neutral (n t : Q) :
  n == 1 -> -10 <= t -> t <= 5 -> getReadinessModifier n t == 1.
Proof.
  intros Hn Hlo Hhi. unfold getReadinessModifier.
  assert (E5 : gtb t 5 = false) by (apply gtb_false_iff; exact Hhi).
  assert (E10 : ltb t (-10) = false) by (apply ltb_false_iff; exact Hlo).
  rewrite E5, E10.
  pose proof (Math_min_spec 1.03 (1.0 + (n - 1.0) * 0.33)) as (A1 & A2 & A3).
  pose proof (Math_max_spec 0.95 (Math_min 1.03 (1.0 + (n - 1.0) * 0.33)))
    as (B1 & B2 & B3).
  destruct A3 as [A3|A3], B3 as [B3|B3]; lra.
Qed.

(** The readiness modifier stays between 0.95 and 1.03, is exactly 1 for a
    fatigue index of 1 with a balance from -10 to 5, and never falls when
    the fatigue index or the balance rises. *)
Theorem getReadinessModifier_spec :
  (forall n t : Q, 0.95 <= getReadinessModifier n t <= 1.03)
  /\ (forall n t : Q,
         n == 1 -> -10 <= t -> t <= 5 -> getReadinessModifier n t == 1)
  /\ (forall n1 n2 t1 t2 : Q,
         n1 <= n2 -> t1 <= t2 ->
         getReadinessModifier n1 t1 <= getReadinessModifier n2 t2).
Proof.
  split; [exact getReadinessModifier_range|].
  split; [exact getReadinessModifier_neutral|].
  intros n1 n2 t1 t2 Hn Ht. unfold getReadinessModifier.
  apply clamp_low_high_mono.
  pose proof (Math_min_spec (t1 * 0.001) 0.01) as (A1 & A2 & A3).
  pose proof (Math_min_spec (t2 * 0.001) 0.01) as (B1 & B2 & B3).
  pose proof (Math_max_spec (t1 * 0.0005) (-0.015)) as (C1 & C2 & C3).
  pose proof (Math_max_spec (t2 * 0.0005) (-0.015)) as (D1 & D2 & D3).
  destruct (gtb t1 5) eqn:E1; destruct (gtb t2 5) eqn:E2;
    try apply gtb_true_iff in E1; try apply gtb_false_iff in E1;
    try apply gtb_true_iff in E2; try apply gtb_false_iff in E2;
    try lra;
    destruct (ltb t1 (-10)) eqn:F1; destruct (ltb t2 (-10)) eqn:F2;
    try apply ltb_true_iff in F1; try apply ltb_false_iff in F1;
    try apply ltb_true_iff in F2; try apply ltb_false_iff in F2;
    try lra;
    destruct A3 as [A3|A3], B3 as [B3|B3], C3 as [C3|C3], D3 as [D3|D3];
    lra.
Qed.

Lemma getReadinessModifier_spec_witness :
  getReadinessModifier 1.0 0 == 1
  /\ getReadinessModifier 0.91 (-25) <= getReadinessModifier 1.02 10.
Proof.
  split.
  - apply (proj1 (proj2 getReadinessModifier_spec)); vm_compute;
      try reflexivity; discriminate.
  - apply (proj2 (proj2 getReadinessModifier_spec)); vm_compute; discriminate.
Defined.

(** The sustain fractions are the baseline 0.91 / 0.88 / 0.78 without a
    profile.  A profile moves the 200 m and 400 m fractions only with at
    least two endurance intervals, and the 100 m fraction only with at
    least three acceleration intervals averaging under 4.5 s, and then only
    upwards; all three stay inside [0.91, 0.95], [0.82, 0.93] and
    [0.70, 0.85]. *)
Theorem getDynamicSustainFractions_spec (profile : option TrainingProfile.t) :
  let f := getDynamicSustainFractions profile in
  (0.91 <= at100 f <= 0.95 /\ 0.82 <= at200 f <= 0.93 /\ 0.70 <= at400 f <= 0.85)
  /\ (profile = None -> f = BASE_SPEED_SUSTAIN)
  /\ (forall p, profile = Some p ->
        (TrainingProfile.seIntervalCount p < 2)%nat ->
        at200 f = 0.88 /\ at400 f = 0.78)
  /\ (forall p, profile = Some p ->
        (TrainingProfile.accelIntervalCount p < 3)%nat
        \/ 4.5 <= TrainingProfile.avgAccelerationTime p ->
        at100 f = 0.91).
Proof.
  intro f. split; [apply getDynamicSustainFractions_range|].
  unfold f, getDynamicSustainFractions.
  split; [intros ->; reflexivity|]. split.
  - intros p -> Hse.
    assert (E : Nat.leb 2 (TrainingProfile.seIntervalCount p) = false)
      by (apply Nat.leb_gt; exact Hse).
    rewrite E. cbn [andb].
    destruct (Nat.leb 3 (TrainingProfile.accelIntervalCount p)
              && gtb (TrainingProfile.avgAccelerationTime p) 0);
      [destruct (ltb (TrainingProfile.avgAccelerationTime p) 4.5)|];
      split; reflexivity.
  - intros p -> Hacc.
    destruct (Nat.leb 2 (TrainingProfile.seIntervalCount p)
              && gtb (TrainingProfile.speedEnduranceIndex p) 0);
      (destruct Hacc as [Hacc|Hacc];
       [ assert (E : Nat.leb 3 (TrainingProfile.accelIntervalCount p) = false)
           by (apply Nat.leb_gt; exact Hacc);
         rewrite E; reflexivity
       | assert (E : ltb (TrainingProfile.avgAccelerationTime p) 4.5 = false)
           by (apply ltb_false_iff; exact Hacc);
         rewrite E;
         destruct (Nat.leb 3 (TrainingProfile.accelIntervalCount p)
                   && gtb (TrainingProfile.avgAccelerationTime p) 0);
         reflexivity ]).
Qed.

Lemma getDynamicSustainFractions_spec_witness :
  getDynamicSustainFractions None = BASE_SPEED_SUSTAIN
  /\ at100 (getDynamicSustainFractions
              (Some (TrainingProfile.mk 0.9 10.2 5 4 6))) = 0.91.
Proof.
  split.
  - apply (proj1 (proj2 (getDynamicSustainFractions_spec None))). reflexivity.
  - apply (proj2 (proj2 (proj2 (getDynamicSustainFractions_spec
                                  (Some (TrainingProfile.mk 0.9 10.2 5 4 6)))))
             (TrainingProfile.mk 0.9 10.2 5 4 6) eq_refl).
    right. vm_compute. discriminate.
Defined.

Lemma agePenalty_antitone (a1 a2 : Q) :
  a1 <= a2 ->
  Math_max (if gtb a2 35 then 1 - (a2 - 35) * AGE_DEGRADATION_PER_YEAR else 1) 0.65
  <= Math_max (if gtb a1 35 then 1 - (a1 - 35) * AGE_DEGRADATION_PER_YEAR else 1) 0.65
  /\ (a2 <= 35 ->
      Math_max (if gtb a2 35 then 1 - (a2 - 35) * AGE_DEGRADATION_PER_YEAR else 1) 0.65
      == Math_max (if gtb a1 35 then 1 - (a1 - 35) * AGE_DEGRADATION_PER_YEAR else 1) 0.65).
Proof.
  intro H. unfold AGE_DEGRADATION_PER_YEAR.
  destruct (gtb a1 35) eqn:E1; destruct (gtb a2 35) eqn:E2;
    try apply gtb_true_iff in E1; try apply gtb_false_iff in E1;
    try apply gtb_true_iff in E2; try apply gtb_false_iff in E2;
    match goal with
    | |- Math_max ?x 0.65 <= Math_max ?y 0.65 /\ _ =>
        pose proof (Math_max_spec x 0.65) as (A1 & A2 & A3);
        pose proof (Math_max_spec y 0.65) as (B1 & B2 & B3)
    end;
    (split; [|intro H35]);
    destruct A3 as [A3|A3], B3 as [B3|B3]; lra.
Qed.

Lemma div_antitone (m s1 s2 : Q) :
  0 <= m -> 0 < s2 -> s2 <= s1 -> m / s1 <= m / s2.
Proof.
  intros Hm H2 H12.
  assert (H1 : 0 < s1) by lra.
  apply Qle_shift_div_l; [exact H2|].
  assert (E : m / s1 * s2 == m * (s2 / s1)) by (field; lra).
  rewrite E.
  assert (Hr : s2 / s1 <= 1) by (apply Qle_shift_div_r; [exact H1 | lra]).
  nra.
Qed.

Lemma raceMetres_pos (d : RaceDistance) : 0 < raceMetres d.
Proof. destruct d; reflexivity. Qed.

(** Age only slows the prediction: with a known peak velocity and all else
    equal, the predicted time of each distance does not fall when the age
    rises, and it is the same for all ages up to 35. *)
Theorem estimateDistance_age_monotone
    (input : RaceEstimatorInput.t) (d : RaceDistance) (age1 age2 : Q) :
  0 < RaceEstimatorInput.bestVmax60d input
  \/ 0 < RaceEstimatorInput.avgVmax input ->
  age1 <= age2 ->
  RaceEstimate.predictedTime (estimateDistance d (withAge input age1))
  <= RaceEstimate.predictedTime (estimateDistance d (withAge input age2))
  /\ (age2 <= 35 ->
      RaceEstimate.predictedTime (estimateDistance d (withAge input age1))
      == RaceEstimate.predictedTime (estimateDistance d (withAge input age2))).
Proof.
  intros Hpos Hage.
  assert (Hp1 : 0 < peakVmaxOf (withAge input age1))
    by (apply peakVmaxOf_pos_iff; exact Hpos).
  assert (Hp2 : 0 < peakVmaxOf (withAge input age2))
    by (apply peakVmaxOf_pos_iff; exact Hpos).
  rewrite (estimateDistance_with_data d _ Hp1),
          (estimateDistance_with_data d _ Hp2).
  pose proof (effectiveVmaxOf_range (withAge input age1) Hp1) as [He _].
  pose proof (getDynamicSustainFractions_range (profileOf (withAge input age1)))
    as (F1 & F2 & F4). cbv zeta in F1, F2, F4.
  pose proof (getReadinessModifier_range (RaceEstimatorInput.nfi input)
                (RaceEstimatorInput.tsb input)) as [Hm _].
  destruct (agePenalty_antitone age1 age2 Hage) as [Ha Ha35].
  pose proof (agePenalty_range age1) as [A1lo _].
  pose proof (agePenalty_range age2) as [A2lo _].
  unfold rawTimeOf, avgSpeedOf.
  change (effectiveVmaxOf (withAge input age2))
    with (effectiveVmaxOf (withAge input age1)).
  change (profileOf (withAge input age2)) with (profileOf (withAge input age1)).
  cbn [withAge RaceEstimatorInput.age RaceEstimatorInput.nfi RaceEstimatorInput.tsb].
  set (e := effectiveVmaxOf (withAge input age1)) in *.
  set (f := fractionAt (getDynamicSustainFractions (profileOf (withAge input age1))) d).
  set (m := getReadinessModifier _ _) in *.
  set (p1 := Math_max (if gtb age1 35 then _ else 1) 0.65) in *.
  set (p2 := Math_max (if gtb age2 35 then _ else 1) 0.65) in *.
  assert (Hf : 0.70 <= f) by (unfold f; destruct d; cbn [fractionAt]; lra).
  assert (Hef : 0 < e * f) by nra.
  assert (Hs2 : 0 < e * f * p2) by nra.
  assert (Hs2m : 0 < e * f * p2 * m) by nra.
  assert (Hle : e * f * p2 * m <= e * f * p1 * m) by nra.
  pose proof (raceMetres_pos d) as Hd.
  assert (Hraw : raceMetres d / (e * f * p1 * m) <= raceMetres d / (e * f * p2 * m))
    by (apply div_antitone; lra).
  assert (H0 : 0 <= raceMetres d / (e * f * p1 * m)).
  { apply Qle_shift_div_l; [nra | lra]. }
  change (toFixed_number 2 (raceMetres d / (e * f * p1 * m) + REACTION_TIME)
          <= toFixed_number 2 (raceMetres d / (e * f * p2 * m) + REACTION_TIME)
          /\ (age2 <= 35 ->
              toFixed_number 2 (raceMetres d / (e * f * p1 * m) + REACTION_TIME)
              == toFixed_number 2 (raceMetres d / (e * f * p2 * m) + REACTION_TIME))).
  split.
  - apply toFixed_number_mono; unfold REACTION_TIME; lra.
  - intro H35. apply toFixed_number_comp.
    rewrite (Ha35 H35). reflexivity.
Qed.

Lemma estimateDistance_age_monotone_witness :
  let input := RaceEstimatorInput.mk 10.0 9.8 1.0 green 5 45 15 None in
  RaceEstimate.predictedTime (estimateDistance D100 (withAge input 30))
  <= RaceEstimate.predictedTime (estimateDistance D100 (withAge input 55)).
Proof.
  intro input.
  apply (estimateDistance_age_monotone input D100 30 55).
  - left. reflexivity.
  - vm_compute. discriminate.
Defined.

End EstimatorFactors.

(** ** The estimator's outputs *)

Section EstimatorOutputs.

Import RaceEstimator.




Lemma string_length_append (a b : string) :
  String.length (a ++ b) = (String.length a + String.length b)%nat.
Proof. induction a as [|c a IH]; cbn; [reflexivity | rewrite IH; reflexivity]. Qed.

Lemma zeros_length (k : nat) : String.length (zeros k) = k.
Proof. induction k as [|k IH]; cbn; [reflexivity | rewrite IH; reflexivity]. Qed.

(** Two decimals take at least three characters: the point and two digits. *)
Lemma toFixed2_length (x : Q) : (3 <= String.length (toFixed 2 x))%nat.
Proof.
  unfold toFixed, pad_left.
  rewrite !string_length_append, zeros_length. cbn [String.length]. lia.
Qed.

Lemma formatTime_no_data_iff (seconds : Q) :
  formatTime seconds = "--"%string <-> seconds <= 0.
Proof.
  unfold formatTime. destruct (leb seconds 0) eqn:E.
  - apply Qle_bool_iff in E. split; [intros _; exact E | reflexivity].
  - assert (Hs : 0 < seconds).
    { apply Qnot_le_lt. intro H. apply Qle_bool_iff in H. unfold leb in E. congruence. }
    split; [|intro H; lra].
    intro H. apply (f_equal String.length) in H. exfalso.
    destruct (ltb seconds 60).
    + pose proof (toFixed2_length seconds). cbn in H. lia.
    + rewrite !string_length_append in H.
      match type of H with
      | context [toFixed 2 ?y] => pose proof (toFixed2_length y)
      end.
      cbn [String.length] in H. lia.
Qed.

(** The placeholder "--" is what the estimator shows exactly when it has no
    positive peak velocity: [formatTime] prints it for a time of 0 or less
    only, and each of the three estimates displays it if and only if both
    bestVmax60d and avgVmax are 0 or less. *)
Theorem estimate_display_no_data_iff :
  (forall seconds : Q, formatTime seconds = "--"%string <-> seconds <= 0)
  /\ forall input : RaceEstimatorInput.t,
      Forall (fun e =>
                RaceEstimate.display e = "--"%string
                <-> RaceEstimatorInput.bestVmax60d input <= 0
                    /\ RaceEstimatorInput.avgVmax input <= 0)
             (estimate input).
Proof.
  split; [exact formatTime_no_data_iff|].
  intro input. unfold estimate. cbn [map].
  assert (H : forall d,
             RaceEstimate.display (estimateDistance d input) = "--"%string
             <-> RaceEstimatorInput.bestVmax60d input <= 0
                 /\ RaceEstimatorInput.avgVmax input <= 0).
  { intro d.
    destruct (Qlt_le_dec 0 (peakVmaxOf input)) as [Hp|Hp].
    - pose proof (proj1 (peakVmaxOf_pos_iff input) Hp) as Hor.
      split; [|intros [H1 H2]; destruct Hor; lra].
      intro Hd. exfalso.
      pose proof (estimateDistance_with_data d input Hp) as Ht.
      assert (Hdisp : RaceEstimate.display (estimateDistance d input)
                      = formatTime (RaceEstimate.predictedTime
                                      (estimateDistance d input))).
      { unfold estimateDistance.
        destruct (leb (peakVmaxOf input) 0) eqn:E; [|reflexivity].
        apply Qle_bool_iff in E. lra. }
      rewrite Hdisp in Hd. apply formatTime_no_data_iff in Hd.
      rewrite Ht in Hd.
      destruct (rawTimeOf_ordered input Hp) as (R1 & R2 & R3 & _).
      assert (Hr : 0.005 < rawTimeOf d input) by (destruct d; lra).
      pose proof (toFixed_number_pos _ Hr). lra.
    - rewrite (estimateDistance_without_data d input Hp).
      split; [|reflexivity]. intros _.
      unfold peakVmaxOf in Hp.
      pose proof (Math_max_spec (RaceEstimatorInput.bestVmax60d input)
                    (RaceEstimatorInput.avgVmax input)) as (M1 & M2 & _).
      split; lra. }
  constructor; [apply H|]. constructor; [apply H|].
  constructor; [apply H|]. constructor.
Qed.

Lemma class_counts (intervals : list TrackInterval.t) :
  (List.length (filter isEndurance intervals)
   + List.length (filter isAcceleration intervals)
   <= List.length intervals)%nat.
Proof.
  induction intervals as [|i l IH]; [cbn; lia|].
  cbn [filter]. unfold isEndurance at 1, isAcceleration at 1.
  destruct (TrackInterval.type i); cbn [List.length]; lia.
Qed.

(** The training profile counts each interval at most once, falls back to
    0 instead of dividing by an empty count or by a peak velocity that is
    not positive, and reports as best flying velocity a value no interval
    exceeds: 0 when no interval has a positive one, otherwise the flying
    velocity of one of the intervals. *)
Theorem buildTrainingProfile_spec
    (intervals : list TrackInterval.t) (peakVmax : Q) :
  let p := buildTrainingProfile intervals peakVmax in
  (TrainingProfile.seIntervalCount p + TrainingProfile.accelIntervalCount p
   <= List.length intervals)%nat
  /\ (TrainingProfile.seIntervalCount p = 0%nat \/ peakVmax <= 0 ->
      TrainingProfile.speedEnduranceIndex p = 0)
  /\ (TrainingProfile.accelIntervalCount p = 0%nat ->
      TrainingProfile.avgAccelerationTime p = 0)
  /\ 0 <= TrainingProfile.bestFlyingVelocity p
  /\ Forall (fun i => TrackInterval.flyingVelocity i
                      <= TrainingProfile.bestFlyingVelocity p) intervals
  /\ (TrainingProfile.bestFlyingVelocity p = 0
      \/ exists i, In i intervals
                   /\ 0 < TrackInterval.flyingVelocity i
                   /\ TrackInterval.flyingVelocity i
                      = TrainingProfile.bestFlyingVelocity p).
Proof.
  intro p. unfold p, buildTrainingProfile.
  cbn [TrainingProfile.seIntervalCount TrainingProfile.accelIntervalCount
       TrainingProfile.speedEnduranceIndex TrainingProfile.avgAccelerationTime
       TrainingProfile.bestFlyingVelocity].
  split; [apply class_counts|]. split.
  { intros [H|H].
    - rewrite H. reflexivity.
    - assert (E : gtb peakVmax 0 = false) by (apply gtb_false_iff; exact H).
      rewrite E, andb_false_r. reflexivity. }
  split.
  { intro H. rewrite H. reflexivity. }
  set (positive := filter (fun i => gtb (TrackInterval.flyingVelocity i) 0) intervals).
  assert (Hpos : forall i, In i positive <->
                           In i intervals /\ 0 < TrackInterval.flyingVelocity i).
  { intro i. unfold positive. rewrite filter_In, gtb_true_iff. reflexivity. }
  destruct positive as [|i0 rest] eqn:Ep.
  - cbn [map List.length Nat.ltb Nat.leb].
    split; [apply Qle_refl|]. split; [|left; reflexivity].
    rewrite Forall_forall. intros i Hi.
    destruct (Qlt_le_dec 0 (TrackInterval.flyingVelocity i)) as [Hlt|Hle];
      [|exact Hle].
    exfalso.
    assert (Hnil : In i []) by (apply Hpos; split; assumption).
    contradiction.
  - assert (Hne : map TrackInterval.flyingVelocity (i0 :: rest) <> [])
      by discriminate.
    destruct (Math_max_spread_spec _ Hne) as [Hmax Hmem].
    replace (Nat.ltb 0 (List.length (map TrackInterval.flyingVelocity (i0 :: rest))))
      with true by reflexivity.
    set (best := Math_max_spread (map TrackInterval.flyingVelocity (i0 :: rest))) in *.
    apply in_map_iff in Hmem. destruct Hmem as (ib & Hib & Hin).
    apply Hpos in Hin. destruct Hin as [Hin Hp].
    rewrite Forall_forall in Hmax.
    split; [rewrite <- Hib; lra|]. split.
    + rewrite Forall_forall. intros i Hi.
      destruct (Qlt_le_dec 0 (TrackInterval.flyingVelocity i)) as [Hlt|Hle].
      * apply Hmax. apply in_map. apply Hpos. split; assumption.
      * rewrite <- Hib. lra.
    + right. exists ib. split; [exact Hin|]. split; [exact Hp | exact Hib].
Qed.

Lemma buildTrainingProfile_spec_witness :
  TrainingProfile.speedEnduranceIndex
    (buildTrainingProfile
       [TrackInterval.mk Acceleration 30 9.2 5 8.9;
        TrackInterval.mk MaxVelocity 60 10.1 7 9.8] 10) = 0.
Proof.
  apply (proj1 (proj2 (buildTrainingProfile_spec
                         [TrackInterval.mk Acceleration 30 9.2 5 8.9;
                          TrackInterval.mk MaxVelocity 60 10.1 7 9.8] 10))).
  left. reflexivity.
Defined.

End EstimatorOutputs.

(** ** Race planning *)

Section PlannerProperties.

Import SprintRacePlanner.

Local Open Scope string_scope.

(** The phase of a race is decided by the days until it: Race Prep up to
    3 days, Final Taper up to 7, Race-Specific up to 14, Sharpen up to 28,
    Build beyond; every number of days has a phase. *)
Theorem getPhase_thresholds (daysUntil : Q) :
  (RacePlanPhase.label (getPhase daysUntil) = "Race Prep" <-> daysUntil <= 3)
  /\ (RacePlanPhase.label (getPhase daysUntil) = "Final Taper"
      <-> 3 < daysUntil /\ daysUntil <= 7)
  /\ (RacePlanPhase.label (getPhase daysUntil) = "Race-Specific"
      <-> 7 < daysUntil /\ daysUntil <= 14)
  /\ (RacePlanPhase.label (getPhase daysUntil) = "Sharpen"
      <-> 14 < daysUntil /\ daysUntil <= 28)
  /\ (RacePlanPhase.label (getPhase daysUntil) = "Build" <-> 28 < daysUntil)
  /\ In (getPhase daysUntil) (map phase PHASES).
Proof.
  unfold getPhase, PHASES. cbn [find withinMaxDays maxDays phase map].
  destruct (leb daysUntil 3) eqn:E3;
    [apply Qle_bool_iff in E3
    | assert (G3 : 3 < daysUntil)
        by (apply Qnot_le_lt; intro H; apply Qle_bool_iff in H;
            unfold leb in E3; congruence);
      destruct (leb daysUntil 7) eqn:E7;
      [apply Qle_bool_iff in E7
      | assert (G7 : 7 < daysUntil)
          by (apply Qnot_le_lt; intro H; apply Qle_bool_iff in H;
              unfold leb in E7; congruence);
        destruct (leb daysUntil 14) eqn:E14;
        [apply Qle_bool_iff in E14
        | assert (G14 : 14 < daysUntil)
            by (apply Qnot_le_lt; intro H; apply Qle_bool_iff in H;
                unfold leb in E14; congruence);
          destruct (leb daysUntil 28) eqn:E28;
          [apply Qle_bool_iff in E28
          | assert (G28 : 28 < daysUntil)
              by (apply Qnot_le_lt; intro H; apply Qle_bool_iff in H;
                  unfold leb in E28; congruence)]]]];
    cbn [RacePlanPhase.label RACE_PREP FINAL_TAPER RACE_SPECIFIC SHARPEN BUILD];
    (repeat split; intros;
     try discriminate; try reflexivity; try lra;
     try match goal with H : _ /\ _ |- _ => destruct H; lra end);
    cbn; auto 6.
Qed.


Lemma planSustainFraction_range (distanceM : Q) :
  0.65 <= planSustainFraction distanceM <= 0.94.
Proof.
  unfold planSustainFraction.
  destruct (leb distanceM 60); [lra|].
  destruct (leb distanceM 100); [lra|].
  destruct (leb distanceM 200); [lra|].
  destruct (leb distanceM 400); [lra|].
  destruct (leb distanceM 600); lra.
Qed.

Lemma planAgePenalty_spec (age1 age2 : Q) :
  0.65 <= planAgePenalty age2 <= 1
  /\ (age1 <= age2 -> planAgePenalty age2 <= planAgePenalty age1).
Proof.
  unfold planAgePenalty, AGE_DEGRADATION_PER_YEAR.
  pose proof (Math_max_spec (1 - (age1 - 35) * 0.007) 0.65) as (A1 & A2 & A3).
  pose proof (Math_max_spec (1 - (age2 - 35) * 0.007) 0.65) as (B1 & B2 & B3).
  destruct (gtb age1 35) eqn:E1; destruct (gtb age2 35) eqn:E2;
    try apply gtb_true_iff in E1; try apply gtb_false_iff in E1;
    try apply gtb_true_iff in E2; try apply gtb_false_iff in E2;
    (split; [|intro H]); destruct A3 as [A3|A3], B3 as [B3|B3]; lra.
Qed.

(** The goal time of a race plan is the placeholder "--" exactly when the
    best velocity is 0 or less.  Otherwise, for a positive distance, the
    time it formats is more than the 0.15 s reaction time, does not fall
    with age and does not rise with the best velocity. *)
Theorem estimateRaceTime_spec (distanceM bestVmax age : Q) :
  (estimateRaceTime distanceM bestVmax age = "--" <-> bestVmax <= 0)
  /\ (0 < distanceM -> 0 < bestVmax ->
      0.15 < planTime distanceM bestVmax age
      /\ (forall older : Q,
             age <= older ->
             planTime distanceM bestVmax age <= planTime distanceM bestVmax older)
      /\ (forall faster : Q,
             bestVmax <= faster ->
             planTime distanceM faster age <= planTime distanceM bestVmax age)).
Proof.
  split.
  - unfold estimateRaceTime. destruct (leb bestVmax 0) eqn:E.
    + apply Qle_bool_iff in E. split; [intros _; exact E | reflexivity].
    + assert (Hv : 0 < bestVmax).
      { apply Qnot_le_lt. intro H. apply Qle_bool_iff in H. unfold leb in E. congruence. }
      split; [|intro H; lra].
      intro H. apply (f_equal String.length) in H. exfalso.
      destruct (ltb (planTime distanceM bestVmax age) 60).
      * rewrite string_length_append in H.
        pose proof (toFixed2_length (planTime distanceM bestVmax age)).
        cbn [String.length] in H. lia.
      * rewrite !string_length_append in H.
        match type of H with
        | context [toFixed 2 ?y] => pose proof (toFixed2_length y)
        end.
        cbn [String.length] in H. lia.
  - intros Hd Hv. unfold planTime.
    pose proof (planSustainFraction_range distanceM) as [F1 F2].
    set (f := planSustainFraction distanceM) in *.
    destruct (planAgePenalty_spec age age) as [[P1 P2] _].
    assert (Hvf : 0 < bestVmax * f) by nra.
    assert (Hs : 0 < bestVmax * f * planAgePenalty age) by nra.
    split.
    + assert (H0 : 0 < distanceM / (bestVmax * f * planAgePenalty age)).
      { apply Qlt_shift_div_l; [exact Hs | lra]. }
      lra.
    + split.
      * intros older Ho.
        destruct (planAgePenalty_spec age older) as [[Q1 Q2] Hanti].
        specialize (Hanti Ho).
        assert (Hs' : 0 < bestVmax * f * planAgePenalty older) by nra.
        assert (Hle : bestVmax * f * planAgePenalty older
                      <= bestVmax * f * planAgePenalty age) by nra.
        pose proof (div_antitone distanceM _ _ (Qlt_le_weak _ _ Hd) Hs' Hle).
        lra.
      * intros faster Hf.
        assert (Hff : bestVmax * f <= faster * f) by nra.
        assert (Hle : bestVmax * f * planAgePenalty age
                      <= faster * f * planAgePenalty age) by nra.
        pose proof (div_antitone distanceM _ _ (Qlt_le_weak _ _ Hd) Hs Hle).
        lra.
Qed.

Lemma estimateRaceTime_spec_witness :
  0.15 < planTime 100 10 45
  /\ planTime 100 10 30 <= planTime 100 10 55.
Proof.
  destruct (proj2 (estimateRaceTime_spec 100 10 45)) as (H1 & _).
  - reflexivity.
  - reflexivity.
  - split; [exact H1|].
    destruct (proj2 (estimateRaceTime_spec 100 10 30)) as (_ & H2 & _).
    + reflexivity.
    + reflexivity.
    + apply H2. vm_compute. discriminate.
Defined.

(** The planner's simple model is the estimator's model with the profile
    and the readiness left out: for 100, 200 and 400 m, an input without
    training intervals, a positive 60-day best that the rolling average
    does not exceed, a fatigue index of 1 and a balance from -10 to 5, the
    planner's time is the estimator's time before rounding. *)
Theorem planTime_agrees_with_estimator
    (input : RaceEstimatorInput.t) (d : RaceDistance) :
  RaceEstimatorInput.trainingIntervals input = None ->
  0 < RaceEstimatorInput.bestVmax60d input ->
  RaceEstimatorInput.avgVmax input <= RaceEstimatorInput.bestVmax60d input ->
  RaceEstimatorInput.nfi input == 1 ->
  -10 <= RaceEstimatorInput.tsb input -> RaceEstimatorInput.tsb input <= 5 ->
  planTime (raceMetres d) (RaceEstimatorInput.bestVmax60d input)
           (RaceEstimatorInput.age input)
  == RaceEstimator.rawTimeOf d input.
Proof.
  intros Hti Hb Ha Hn Ht1 Ht2.
  unfold planTime, RaceEstimator.rawTimeOf, RaceEstimator.avgSpeedOf,
    RaceEstimator.REACTION_TIME.
  assert (Hprof : RaceEstimator.profileOf input = None)
    by (unfold RaceEstimator.profileOf; rewrite Hti; reflexivity).
  assert (Heff : RaceEstimator.effectiveVmaxOf input
                 = RaceEstimator.peakVmaxOf input)
    by (unfold RaceEstimator.effectiveVmaxOf; rewrite Hprof; reflexivity).
  rewrite Heff, Hprof.
  assert (Hpeak : RaceEstimator.peakVmaxOf input
                  == RaceEstimatorInput.bestVmax60d input).
  { unfold RaceEstimator.peakVmaxOf.
    pose proof (Math_max_spec (RaceEstimatorInput.bestVmax60d input)
                  (RaceEstimatorInput.avgVmax input)) as (M1 & M2 & [M3|M3]); lra. }
  assert (Hmod : RaceEstimator.getReadinessModifier
                   (RaceEstimatorInput.nfi input) (RaceEstimatorInput.tsb input)
                 == 1)
    by (apply getReadinessModifier_neutral; assumption).
  assert (Hfrac : RaceEstimator.fractionAt
                    (RaceEstimator.getDynamicSustainFractions None) d
                  = planSustainFraction (raceMetres d))
    by (destruct d; reflexivity).
  assert (Hage : Math_max
                   (if gtb (RaceEstimatorInput.age input) 35
                    then 1 - (RaceEstimatorInput.age input - 35)
                             * AGE_DEGRADATION_PER_YEAR
                    else 1) 0.65
                 == planAgePenalty (RaceEstimatorInput.age input)).
  { unfold planAgePenalty.
    destruct (gtb (RaceEstimatorInput.age input) 35); reflexivity. }
  rewrite Hfrac, Hpeak, Hmod, Hage.
  rewrite Qmult_1_r. reflexivity.
Qed.

Lemma planTime_agrees_with_estimator_witness :
  planTime 100 10 45
  == RaceEstimator.rawTimeOf D100
       (RaceEstimatorInput.mk 10 9.8 1 green 5 45 15 None).
Proof.
  apply (planTime_agrees_with_estimator
           (RaceEstimatorInput.mk 10 9.8 1 green 5 45 15 None) D100);
    vm_compute; try reflexivity; discriminate.
Defined.

(** Past the first index the callback of [buildMultiRacePlans] is
    [secondaryPlan]. *)
Lemma mapi_from_secondary {A B : Type} (first later : A -> B) (xs : list A) (k : nat) :
  mapi_from (S k) (fun x index => if Nat.eqb index 0 then first x else later x) xs
  = map later xs.
Proof.
  revert k. induction xs as [|x xs IH]; intro k; [reflexivity|].
  cbn [mapi_from map Nat.eqb]. rewrite IH. reflexivity.
Qed.

Lemma buildMultiRacePlans_cons
    (primary : SprintRaceEvent.t) (others : list SprintRaceEvent.t)
    (bestVmax age : Q) :
  buildMultiRacePlans (primary :: others) bestVmax age
  = {| SprintRacePlan.race := primary;
       SprintRacePlan.goalTime :=
         estimateRaceTime (SprintRaceEvent.distanceM primary) bestVmax age;
       SprintRacePlan.currentPhase := getPhase (SprintRaceEvent.daysUntil primary);
       SprintRacePlan.priorRaceContext := None |}
    :: map (fun race =>
              secondaryPlan primary race
                (estimateRaceTime (SprintRaceEvent.distanceM race) bestVmax age))
           others.
Proof.
  unfold buildMultiRacePlans, mapi. cbn [mapi_from Nat.eqb].
  rewrite (mapi_from_secondary
             (fun race =>
                {| SprintRacePlan.race := race;
                   SprintRacePlan.goalTime :=
                     estimateRaceTime (SprintRaceEvent.distanceM race) bestVmax age;
                   SprintRacePlan.currentPhase :=
                     getPhase (SprintRaceEvent.daysUntil race);
                   SprintRacePlan.priorRaceContext := None |})
             (fun race =>
                secondaryPlan primary race
                  (estimateRaceTime (SprintRaceEvent.distanceM race) bestVmax age))).
  reflexivity.
Qed.

(** The planner returns one plan per race, in the order of the races, each
    with the goal time of its own distance.  The first plan is the
    unconstrained one of the nearest race (phase by its own days, no prior
    context), which is also what [buildPlan] returns for a single race;
    every later plan carries a prior-race context. *)
Theorem buildMultiRacePlans_alignment
    (races : list SprintRaceEvent.t) (bestVmax age : Q) :
  let plans := buildMultiRacePlans races bestVmax age in
  map SprintRacePlan.race plans = races
  /\ map SprintRacePlan.goalTime plans
     = map (fun r => estimateRaceTime (SprintRaceEvent.distanceM r) bestVmax age)
           races
  /\ (forall primary others,
         races = primary :: others ->
         exists first later,
           plans = first :: later
           /\ SprintRacePlan.priorRaceContext first = None
           /\ SprintRacePlan.currentPhase first
              = getPhase (SprintRaceEvent.daysUntil primary)
           /\ buildPlan primary bestVmax age = Some first
           /\ Forall (fun p => SprintRacePlan.priorRaceContext p <> None) later).
Proof.
  intro plans. unfold plans.
  destruct races as [|primary others].
  - split; [reflexivity|]. split; [reflexivity|]. intros ? ? H. discriminate H.
  - rewrite buildMultiRacePlans_cons. cbn [map SprintRacePlan.race SprintRacePlan.goalTime].
    split; [|split].
    + f_equal. rewrite map_map. cbn [secondaryPlan SprintRacePlan.race].
      apply map_id.
    + f_equal. rewrite map_map. reflexivity.
    + intros p o H. injection H as <- <-.
      eexists. eexists. split; [reflexivity|].
      split; [reflexivity|]. split; [reflexivity|]. split; [reflexivity|].
      rewrite Forall_forall. intros q Hq.
      apply in_map_iff in Hq. destruct Hq as (r & <- & _). discriminate.
Qed.

Lemma buildMultiRacePlans_alignment_witness :
  exists first later,
    buildMultiRacePlans
      [SprintRaceEvent.mk "r1" "Meet A" "2026-05-01" 100 10;
       SprintRaceEvent.mk "r2" "Meet B" "2026-05-21" 200 30] 10 45
    = first :: later
    /\ SprintRacePlan.priorRaceContext first = None
    /\ SprintRacePlan.currentPhase first = getPhase 10
    /\ buildPlan (SprintRaceEvent.mk "r1" "Meet A" "2026-05-01" 100 10) 10 45
       = Some first
    /\ Forall (fun p => SprintRacePlan.priorRaceContext p <> None) later.
Proof.
  apply (proj2 (proj2 (buildMultiRacePlans_alignment
                         [SprintRaceEvent.mk "r1" "Meet A" "2026-05-01" 100 10;
                          SprintRaceEvent.mk "r2" "Meet B" "2026-05-21" 200 30]
                         10 45))
           (SprintRaceEvent.mk "r1" "Meet A" "2026-05-01" 100 10)
           [SprintRaceEvent.mk "r2" "Meet B" "2026-05-21" 200 30]).
  reflexivity.
Defined.



End PlannerProperties.

(** ** Generated workouts *)

Section WorkoutStructure.

Import SprintWorkoutGenerator.

Local Open Scope string_scope.

(** The status a generated workout carries is the band it was asked for,
    except on the re-activation pathway, whose workout is always labelled
    red: a stale amber reading comes back as a red workout. *)
Theorem generate_status
    (band : NFIStatus) (nfi : Q) (context : option SprintContext) :
  SprintWorkout.status (generate band nfi context)
  = (if isStaleVmax band context then red else band)
  /\ (SprintWorkout.status (generate band nfi context) <> band
      <-> band = amber /\ exists c, context = Some c /\ (0 <= tsb c)%Q).
Proof.
  unfold generate.
  destruct (isStaleVmax band context) eqn:E.
  - apply isStaleVmax_true_iff in E. destruct E as [Hb (c & -> & Ht)].
    cbn [SprintWorkout.status reactivationWorkout].
    split; [reflexivity|]. split.
    + intro Hne. split; [|exists c; split; [reflexivity | exact Ht]].
      destruct Hb as [Hb|Hb]; [exact Hb | congruence].
    + intros [-> _]. discriminate.
  - split; [destruct band; reflexivity|]. split.
    + intro Hne. exfalso. apply Hne. destruct band; reflexivity.
    + intros [-> (c & -> & Ht)]. exfalso.
      assert (Hs : isStaleVmax amber (Some c) = true).
      { apply isStaleVmax_true_iff. split; [left; reflexivity|].
        exists c. split; [reflexivity | exact Ht]. }
      congruence.
Qed.

(** Every generated workout has a warm-up, a main set and a cool-down, each
    main-set block with at least one repetition, and a rationale that opens
    with the fatigue index as a percentage to one decimal.  It prescribes
    no sprint volume exactly on the plain red branch. *)
Theorem generate_structure
    (band : NFIStatus) (nfi : Q) (context : option SprintContext) :
  let w := generate band nfi context in
  SprintWorkout.warmup w <> []
  /\ SprintWorkout.mainSet w <> []
  /\ SprintWorkout.cooldown w <> []
  /\ Forall (fun b => (1 <= SprintBlock.reps b)%Z) (SprintWorkout.mainSet w)
  /\ (exists rest,
         SprintWorkout.rationale w
         = "NFI at " ++ toFixed 1 (nfi * 100)%Q ++ "%" ++ rest)
  /\ (SprintWorkout.totalSprintVolume w = "0m sprint distance"
      <-> band = red /\ isStaleVmax band context = false).
Proof.
  intro w. unfold w, generate.
  destruct (isStaleVmax band context) eqn:E.
  - apply isStaleVmax_true_iff in E. destruct E as [Hb (c & -> & Ht)].
    cbn [reactivationWorkout SprintWorkout.warmup SprintWorkout.mainSet
         SprintWorkout.cooldown SprintWorkout.rationale
         SprintWorkout.totalSprintVolume].
    split; [discriminate|]. split; [discriminate|]. split; [discriminate|].
    split; [repeat constructor; discriminate|].
    split; [eexists; unfold nfiPercent; reflexivity|].
    split; [discriminate | intros [_ H]; discriminate H].
  - destruct band;
      cbn [statusWorkout greenWorkout amberWorkout redWorkout
           SprintWorkout.warmup SprintWorkout.mainSet
           SprintWorkout.cooldown SprintWorkout.rationale
           SprintWorkout.totalSprintVolume];
      (split; [discriminate|]); (split; [discriminate|]); (split; [discriminate|]);
      (split; [repeat constructor; discriminate|]);
      (split; [eexists; unfold nfiPercent; reflexivity|]);
      (split; [try discriminate; intros _; split; reflexivity
              | try (intros [H _]; discriminate H); reflexivity]).
Qed.

End WorkoutStructure.
